(** * dind.py: a Streamlit panel over a Docker daemon (TCP client or SSH CLI)

    Shallow embedding of [src/dind.py] and the properties of its connector
    ([get_docker_client_via_tcp], [run_ssh_command]) and of the handlers of
    [main].

    Modelling conventions.
    - Python [str] values are [string]s (sequences of 8-bit characters);
      [str.lower] is modelled on the ASCII letters, the alphabet of Docker
      container names and image references.
    - The script runs in a state-and-exception monad [M]: the state holds the
      world of the two backends, the [st.cache_resource] table, the Python
      object allocator, the elements displayed so far and the list of backend
      calls made so far.
    - The Docker SDK, paramiko and [bytes.decode] are not code of the
      repository: they are the fields of a [Backend] record, over which the
      development is parametric.
    - A widget call ([st.text_input], [st.button], ...) returns the value the
      user gave that widget for the current rerun (record [Inputs]). *)

From Stdlib Require Import String Ascii List ZArith QArith Lia Bool.
From Stdlib.Strings Require Byte.
From stdpp Require Import base option list strings gmap.
Import ListNotations.

Set Warnings "-register-all".

Local Open Scope string_scope.
Local Open Scope list_scope.

(** ** Python strings *)

Module PyStr.

(** [bool(s)] for a [str]: the empty string is falsy. *)
Definition truthy (s : string) : bool :=
  match s with
  | EmptyString => false
  | String _ _ => true
  end.

(** The upper-case ASCII letters, ["A"] (65) to ["Z"] (90). *)
Definition is_upper (c : ascii) : bool :=
  let n := nat_of_ascii c in (65 <=? n)%nat && (n <=? 90)%nat.

(** [c.lower()] on one ASCII character. *)
Definition lower_ascii (c : ascii) : ascii :=
  if is_upper c then ascii_of_nat (nat_of_ascii c + 32) else c.

(** [s.lower()]. *)
Fixpoint lower (s : string) : string :=
  match s with
  | EmptyString => EmptyString
  | String c s' => String (lower_ascii c) (lower s')
  end.

(** [sub in s] for two [str]: [sub] occurs in [s] at some position. *)
Fixpoint contains (sub s : string) : bool :=
  if String.prefix sub s then true
  else match s with
       | EmptyString => false
       | String _ s' => contains sub s'
       end.

(** [any(p(x) for x in l)]. *)
Definition any {A} (p : A -> bool) (l : list A) : bool := existsb p l.

(** What "[s] contains [sub]" means: [sub] is a contiguous fragment of [s]. *)
Definition substring_of (sub s : string) : Prop :=
  exists pre post, s = String.append pre (String.append sub post).




End PyStr.

(** ** Engine entities as the handlers read them *)

Record Container := mkContainer {
  c_id : string;
  c_short_id : string;
  c_name : string;
  c_image_tags : list string;   (* container.image.tags *)
  c_status : string
}.

Record Image := mkImage {
  i_id : string;
  i_short_id : string;
  i_tags : list string
}.

(** ** The two list filters of [main] (lines 81 and 127) *)

(** [[c for c in containers if search.lower() in c.name.lower()] if search
    else containers] *)
Definition filter_containers (search : string) (containers : list Container)
  : list Container :=
  if PyStr.truthy search
  then List.filter
         (fun c => PyStr.contains (PyStr.lower search) (PyStr.lower (c_name c)))
         containers
  else containers.

(** [[i for i in images if any(search_img in tag for tag in i.tags)] if
    search_img else images] *)
Definition filter_images (search_img : string) (images : list Image)
  : list Image :=
  if PyStr.truthy search_img
  then List.filter
         (fun i => PyStr.any (fun tag => PyStr.contains search_img tag) (i_tags i))
         images
  else images.


(** ** Exceptions, outcomes and displayed elements *)

(** A Python exception, by what the handlers of the script look at: whether
    it is an instance of [docker.errors.DockerException], and [str(e)].
    Every value is an instance of [Exception]: what the two libraries and the
    script's own expressions raise.  [st.stop()] is not one of them (it is
    the outcome [Halt]). *)
Record exn := mkExn {
  exn_docker : bool;
  exn_str : string
}.

Inductive outcome (A : Type) : Type :=
| Ret (a : A)       (* the statement ran to its end *)
| Raise (e : exn)   (* an exception is propagating *)
| Halt.             (* st.stop(): the rerun ends here *)
Arguments Ret {A} a.
Arguments Raise {A} e.
Arguments Halt {A}.

(** A result of a library call: an exception or a value. *)
Definition res (A : Type) : Type := (exn + A)%type.

(** JSON-like values of the engine's stats sample. *)
Inductive pyval :=
| PyNone
| PyInt (z : Z)
| PyStr (s : string)
| PyDict (items : list (string * pyval)).

(** Pieces of an f-string whose rendering is left symbolic. *)
Inductive fmt :=
| FStr (s : string)
| FList (l : list string)    (* {tags}: the repr of a list of str *)
| FFloat2 (q : Q)            (* {mem:.2f} *)
| FVal (v : pyval).          (* {cpu} *)

Inductive ui_elem :=
| UiTitle (s : string)
| UiMarkdown (s : string)
| UiSubheader (s : string)
| UiWrite (t : list fmt)
| UiInfo (t : list fmt)
| UiSuccess (s : string)
| UiWarning (s : string)
| UiError (s : string)
| UiCode (s : string)
| UiDownload (data file_name : string).

(** The object returned by [docker.DockerClient(base_url=...)]: its identity
    (the address of the Python object) and the URL it was built for. *)
Record DockerClient := mkClient {
  client_id : nat;
  base_url : string
}.

(** Calls made to the two libraries, in the order they are made. *)
Inductive call :=
| DockerClientInit (url : string)
| Ping (url : string)
| ContainersList
| ContainerStart (id : string)
| ContainerStop (id : string)
| ContainerRestart (id : string)
| ContainerRemove (id : string)
| ContainerStats (id : string)
| ContainersRun (image : string) (command : option string)
| ImagesList
| ImagesRemove (id : string)
| ImagesPull (ref : string)
| ContainerLogs (id : string)
| ExecCreate (id command : string)
| ExecStart (exec_id : string)
| SshConnect (host username : string)
| SshExecCommand (command : string)
| SshReadStdout
| SshReadStderr
| SshClose.

(** Calls to paramiko; the others are calls to the Docker SDK. *)
Definition is_ssh_call (c : call) : bool :=
  match c with
  | SshConnect _ _ | SshExecCommand _ | SshReadStdout | SshReadStderr
  | SshClose => true
  | _ => false
  end.

(** The Docker SDK, paramiko and [bytes.decode], over a world [W] they read
    and change.  Each call returns a value or raises. *)
Record Backend (W : Type) := mkBackend {
  docker_client_init : string -> W -> res unit * W;
  docker_ping : DockerClient -> W -> res unit * W;
  containers_list : DockerClient -> bool -> W -> res (list Container) * W;
  container_start : Container -> W -> res unit * W;
  container_stop : Container -> W -> res unit * W;
  container_restart : Container -> W -> res unit * W;
  container_remove : Container -> bool -> W -> res unit * W;
  container_stats : Container -> bool -> W -> res pyval * W;
  containers_run :
    DockerClient -> string -> option string -> bool -> W -> res Container * W;
  images_list : DockerClient -> W -> res (list Image) * W;
  images_remove : DockerClient -> string -> bool -> W -> res unit * W;
  images_pull : DockerClient -> string -> W -> res unit * W;
  container_logs : Container -> nat -> W -> res (list Byte.byte) * W;
  api_exec_create : DockerClient -> string -> string -> W -> res string * W;
  api_exec_start : DockerClient -> string -> W -> res (list Byte.byte) * W;
  ssh_connect : string -> string -> string -> nat -> W -> res unit * W;
  ssh_exec_command : string -> W -> res unit * W;
  ssh_stdout_read : W -> res (list Byte.byte) * W;
  ssh_stderr_read : W -> res (list Byte.byte) * W;
  ssh_close : W -> res unit * W;
  bytes_decode : list Byte.byte -> res string
}.
Arguments docker_client_init {W} _ _ _.
Arguments docker_ping {W} _ _ _.
Arguments containers_list {W} _ _ _ _.
Arguments container_start {W} _ _ _.
Arguments container_stop {W} _ _ _.
Arguments container_restart {W} _ _ _.
Arguments container_remove {W} _ _ _ _.
Arguments container_stats {W} _ _ _ _.
Arguments containers_run {W} _ _ _ _ _ _.
Arguments images_list {W} _ _ _.
Arguments images_remove {W} _ _ _ _ _.
Arguments images_pull {W} _ _ _ _.
Arguments container_logs {W} _ _ _ _.
Arguments api_exec_create {W} _ _ _ _ _.
Arguments api_exec_start {W} _ _ _ _.
Arguments ssh_connect {W} _ _ _ _ _ _.
Arguments ssh_exec_command {W} _ _ _.
Arguments ssh_stdout_read {W} _ _.
Arguments ssh_stderr_read {W} _ _.
Arguments ssh_close {W} _ _.
Arguments bytes_decode {W} _ _.

(** ** The state of a session and the monad of the script *)

(** An entry of the [st.cache_resource] table of
    [get_docker_client_via_tcp] holds the value the function returned and the
    elements it displayed, which a hit displays again. *)
Record state (W : Type) := mkState {
  world : W;                          (* the engine and the remote host *)
  cache : gmap string (option DockerClient * list ui_elem);
  next_id : nat;                      (* next fresh object identity *)
  ui : list ui_elem;                  (* elements displayed so far *)
  trace : list call                   (* library calls made so far *)
}.
Arguments mkState {W} _ _ _ _ _.
Arguments world {W} _.
Arguments cache {W} _.
Arguments next_id {W} _.
Arguments ui {W} _.
Arguments trace {W} _.

Definition M (W A : Type) : Type := state W -> outcome A * state W.

Definition ret {W A} (a : A) : M W A := fun s => (Ret a, s).

Definition bind {W A B} (m : M W A) (k : A -> M W B) : M W B :=
  fun s =>
    match m s with
    | (Ret a, s') => k a s'
    | (Raise e, s') => (Raise e, s')
    | (Halt, s') => (Halt, s')
    end.

Declare Scope py_scope.
Delimit Scope py_scope with py.
Notation "x <- c1 ;; c2" := (bind c1 (fun x => c2))
  (at level 100, c1 at next level, right associativity) : py_scope.
Notation "c1 ;; c2" := (bind c1 (fun _ => c2))
  (at level 100, right associativity) : py_scope.
Local Open Scope py_scope.

Definition raise {W A} (e : exn) : M W A := fun s => (Raise e, s).

(** [st.stop()] *)
Definition st_stop {W A} : M W A := fun s => (Halt, s).

(** [try: body except C as e: handler e], where [catches e] tells whether
    [e] is an instance of [C]. *)
Definition try_except {W A} (catches : exn -> bool)
    (body : M W A) (handler : exn -> M W A) : M W A :=
  fun s =>
    match body s with
    | (Raise e, s') => if catches e then handler e s' else (Raise e, s')
    | r => r
    end.

(** [except DockerException] and [except Exception]. *)
Definition DockerException (e : exn) : bool := exn_docker e.
Definition Exception (e : exn) : bool := true.

Definition when {W} (b : bool) (m : M W unit) : M W unit :=
  if b then m else ret tt.

(** [for x in l: body x] *)
Fixpoint for_each {W A} (l : list A) (body : A -> M W unit) : M W unit :=
  match l with
  | [] => ret tt
  | x :: l' => body x ;; for_each l' body
  end.

(** Display one element. *)
Definition show {W} (e : ui_elem) : M W unit :=
  fun s => (Ret tt, mkState (world s) (cache s) (next_id s) (ui s ++ [e]) (trace s)).

(** Allocate a Python object: a fresh identity. *)
Definition alloc {W} : M W nat :=
  fun s => (Ret (next_id s),
            mkState (world s) (cache s) (S (next_id s)) (ui s) (trace s)).

(** Make a library call, recording it. *)
Definition lib {W A} (c : call) (op : W -> res A * W) : M W A :=
  fun s =>
    let '(r, w') := op (world s) in
    let s' := mkState w' (cache s) (next_id s) (ui s) (trace s ++ [c]) in
    match r with
    | inl e => (Raise e, s')
    | inr a => (Ret a, s')
    end.

(** A pure expression that may raise. *)
Definition eval {W A} (r : res A) : M W A :=
  match r with
  | inl e => raise e
  | inr a => ret a
  end.

(** ** Python expressions used by the handlers *)

Definition nl : string := String (ascii_of_nat 10) EmptyString.

Definition KeyError (key : string) : exn :=
  mkExn false ("'" +:+ key +:+ "'").
Definition TypeError (msg : string) : exn := mkExn false msg.
Definition UnboundLocalError (var : string) : exn :=
  mkExn false
    ("cannot access local variable '" +:+ var
     +:+ "' where it is not associated with a value").
Definition StopIteration : exn := mkExn false "".

(** [d[key]] on a value of the stats sample. *)
Fixpoint assoc {V} (key : string) (items : list (string * V)) : option V :=
  match items with
  | [] => None
  | (k, v) :: items' => if String.eqb k key then Some v else assoc key items'
  end.

Definition py_getitem (d : pyval) (key : string) : res pyval :=
  match d with
  | PyDict items =>
      match assoc key items with
      | Some v => inr v
      | None => inl (KeyError key)
      end
  | PyNone => inl (TypeError "'NoneType' object is not subscriptable")
  | PyInt _ => inl (TypeError "'int' object is not subscriptable")
  | PyStr _ => inl (TypeError "string indices must be integers")
  end.

(** [v / (1024 ** 2)]: true division of an [int], as an exact quotient. *)
Definition py_div_1024_2 (v : pyval) : res Q :=
  match v with
  | PyInt z => inr (z # (1024 ^ 2))%Q
  | _ => inl (TypeError "unsupported operand type(s) for /")
  end.

(** A [dict] with [str] keys, in insertion order; [d[k] = v] keeps the place
    of a key that is already there. *)
Fixpoint dict_set {V} (k : string) (v : V) (d : list (string * V))
  : list (string * V) :=
  match d with
  | [] => [(k, v)]
  | (k', v') :: d' =>
      if String.eqb k' k then (k', v) :: d' else (k', v') :: dict_set k v d'
  end.

(** [{key(x): x for x in l}] *)
Definition dict_of {V} (key : V -> string) (l : list V) : list (string * V) :=
  fold_left (fun d x => dict_set (key x) x d) l [].

Definition dict_keys {V} (d : list (string * V)) : list string := map fst d.

(** [d[k]] where [k] is what a selectbox returned ([None] if it had no
    option). *)
Definition dict_getitem {V} (d : list (string * V)) (k : option string)
  : res V :=
  match k with
  | Some key =>
      match assoc key d with
      | Some v => inr v
      | None => inl (KeyError key)
      end
  | None => inl (KeyError "None")
  end.

(** [st.selectbox(label, options)]: the option at the index the user chose,
    the first one by default. *)
Definition selectbox (options : list string) (choice : nat) : option string :=
  match nth_error options choice with
  | Some o => Some o
  | None => head options
  end.

(** [next(cc for cc in containers if cc.name == selected)] *)
Definition next_named (containers : list Container) (selected : option string)
  : res Container :=
  match selected with
  | Some name =>
      match find (fun cc => String.eqb (c_name cc) name) containers with
      | Some cc => inr cc
      | None => inl StopIteration
      end
  | None => inl StopIteration
  end.

(** [bool(l)] for a list. *)
Definition nonempty {A} (l : list A) : bool :=
  match l with
  | [] => false
  | _ :: _ => true
  end.

(** [cmd or None] *)
Definition or_None (cmd : string) : option string :=
  if PyStr.truthy cmd then Some cmd else None.

(** ** What the user entered and clicked for one rerun *)

Inductive mode := LocalDockerTCP | SSHToRemoteDocker.

Record Inputs := mkInputs {
  in_mode : mode;                     (* radio "Choose Connection Method" *)
  in_docker_host : string;            (* "Docker Host" *)
  in_ssh_host : string;
  in_ssh_user : string;
  in_ssh_pass : string;
  in_test_ssh : bool;                 (* button "Test SSH Connection" *)
  in_search : string;                 (* "Search container by name" *)
  in_select_container : nat;          (* selectbox "Select Container" *)
  in_start : bool;
  in_stop : bool;
  in_restart : bool;
  in_remove : bool;
  in_show_stats : bool;               (* checkbox "Show Live Stats" *)
  in_img : string;                    (* "Image name" *)
  in_cmd : string;                    (* "Command" *)
  in_create : bool;                   (* button "Create & Run" *)
  in_search_img : string;             (* "Search image" *)
  in_remove_image : string -> bool;   (* button "Remove {short_id}" *)
  in_new_image : string;              (* "Image to pull" *)
  in_pull : bool;                     (* button "Pull Image" *)
  in_log_container : nat;             (* selectbox of the logs tab *)
  in_download_logs : bool;
  in_exec_container : nat;            (* selectbox of the exec tab *)
  in_command : string;                (* "Command to run" *)
  in_run_command : bool               (* button "Run Command" *)
}.

Definition DEFAULT_DOCKER_HOST : string := "tcp://localhost:2375".
Definition DEFAULT_SSH_HOST : string := "".
Definition DEFAULT_SSH_USER : string := "".
Definition DEFAULT_SSH_PASS : string := "".

(** The rerun in which nothing was typed or clicked: every widget has its
    default value. *)
Definition default_inputs : Inputs :=
  {| in_mode := LocalDockerTCP;
     in_docker_host := DEFAULT_DOCKER_HOST;
     in_ssh_host := DEFAULT_SSH_HOST;
     in_ssh_user := DEFAULT_SSH_USER;
     in_ssh_pass := DEFAULT_SSH_PASS;
     in_test_ssh := false;
     in_search := "";
     in_select_container := 0;
     in_start := false; in_stop := false; in_restart := false;
     in_remove := false;
     in_show_stats := false;
     in_img := "alpine:latest";
     in_cmd := "echo Hello from Docker";
     in_create := false;
     in_search_img := "";
     in_remove_image := fun _ => false;
     in_new_image := "nginx:latest";
     in_pull := false;
     in_log_container := 0;
     in_download_logs := false;
     in_exec_container := 0;
     in_command := "ls -l";
     in_run_command := false |}.

(** ** The script *)

Section Script.

Context {W : Type} (B : Backend W).

(** *** FUNCTIONS (lines 20-43) *)

(** The body of [get_docker_client_via_tcp], without its decorator. *)
Definition get_docker_client_via_tcp_body (docker_host : string)
  : M W (option DockerClient) :=
  try_except DockerException
    (id <- alloc ;;
     let client := mkClient id docker_host in
     lib (DockerClientInit docker_host) (docker_client_init B docker_host) ;;
     lib (Ping docker_host) (docker_ping B client) ;;
     ret (Some client))
    (fun e =>
       show (UiError ("Failed to connect to Docker daemon at " +:+ docker_host
                      +:+ "." +:+ nl +:+ "Error: " +:+ exn_str e)) ;;
       ret None).

(** [@st.cache_resource], Streamlit's decorator, by its documented
    behaviour: the table is keyed by the argument.  On a hit the stored value
    is returned, the elements the function displayed are displayed again and
    the function is not run.  On a miss the function runs; what it returns
    is stored with what it displayed; an exception leaves the table as it
    was.  No entry expires (the decorator is given no [ttl] or
    [max_entries]). *)
Definition cache_resource (f : string -> M W (option DockerClient))
    (key : string) : M W (option DockerClient) :=
  fun s =>
    match cache s !! key with
    | Some (v, shown) =>
        (Ret v,
         mkState (world s) (cache s) (next_id s) (ui s ++ shown) (trace s))
    | None =>
        match f key s with
        | (Ret v, s') =>
            (Ret v,
             mkState (world s')
               (<[key := (v, drop (length (ui s)) (ui s'))]> (cache s'))
               (next_id s') (ui s') (trace s'))
        | r => r
        end
    end.

Definition get_docker_client_via_tcp : string -> M W (option DockerClient) :=
  cache_resource get_docker_client_via_tcp_body.

(** Lines 34-40: the [try] block of [run_ssh_command], up to the two decoded
    texts. *)
Definition ssh_session (host username password command : string)
  : M W (string * string) :=
  lib (SshConnect host username) (ssh_connect B host username password 10) ;;
  lib (SshExecCommand command) (ssh_exec_command B command) ;;
  out_bytes <- lib SshReadStdout (ssh_stdout_read B) ;;
  output <- eval (bytes_decode B out_bytes) ;;
  err_bytes <- lib SshReadStderr (ssh_stderr_read B) ;;
  error <- eval (bytes_decode B err_bytes) ;;
  lib SshClose (ssh_close B) ;;
  ret (output, error).

Definition run_ssh_command (host username password command : string)
  : M W string :=
  try_except Exception
    (p <- ssh_session host username password command ;;
     let '(output, error) := p in
     ret (if PyStr.truthy output then output else error))
    (fun e => ret ("SSH connection error: " +:+ exn_str e)).

(** *** MAIN APP (lines 49-170) *)

(** Reading the local variable [client]: it is bound by the TCP branch
    only. *)
Definition load_client (client : option DockerClient) : M W DockerClient :=
  match client with
  | Some c => ret c
  | None => raise (UnboundLocalError "client")
  end.

(** Lines 55-70: the value bound to [client], if any. *)
Definition connect (inp : Inputs) : M W (option DockerClient) :=
  match in_mode inp with
  | LocalDockerTCP =>
      client <- get_docker_client_via_tcp (in_docker_host inp) ;;
      match client with
      | None => st_stop                       (* if not client: st.stop() *)
      | Some c => ret (Some c)
      end
  | SSHToRemoteDocker =>
      when (in_test_ssh inp)
        (result <- run_ssh_command (in_ssh_host inp) (in_ssh_user inp)
                     (in_ssh_pass inp) "docker ps -a" ;;
         show (UiCode result)) ;;
      show (UiWarning
        "SSH mode uses remote Docker CLI via commands — limited UI features.") ;;
      ret None
  end.

(** Line 78: [client.containers.list(all=True) if mode == "Local Docker TCP"
    else []] *)
Definition list_containers (m : mode) (client : option DockerClient)
  : M W (list Container) :=
  match m with
  | LocalDockerTCP =>
      c <- load_client client ;;
      lib ContainersList (containers_list B c true)
  | SSHToRemoteDocker => ret []
  end.

(** Line 125: [client.images.list() if mode == "Local Docker TCP" else []] *)
Definition list_images (m : mode) (client : option DockerClient)
  : M W (list Image) :=
  match m with
  | LocalDockerTCP =>
      c <- load_client client ;;
      lib ImagesList (images_list B c)
  | SSHToRemoteDocker => ret []
  end.

(** Lines 102-106: the body of [if st.checkbox("Show Live Stats")]. *)
Definition show_live_stats (container : Container) : M W unit :=
  stats <- lib (ContainerStats (c_id container))
             (container_stats B container false) ;;
  memory_stats <- eval (py_getitem stats "memory_stats") ;;
  usage <- eval (py_getitem memory_stats "usage") ;;
  mem <- eval (py_div_1024_2 usage) ;;
  cpu_stats <- eval (py_getitem stats "cpu_stats") ;;
  cpu_usage <- eval (py_getitem cpu_stats "cpu_usage") ;;
  cpu <- eval (py_getitem cpu_usage "total_usage") ;;
  show (UiInfo [FStr "Memory: "; FFloat2 mem; FStr " MB | CPU: "; FVal cpu;
                FStr " units"]).

(** Lines 91-106: the four buttons and the checkbox of the selected
    container. *)
Definition container_actions (inp : Inputs) (container : Container)
  : M W unit :=
  when (in_start inp)
    (lib (ContainerStart (c_id container)) (container_start B container) ;;
     show (UiSuccess "Started.")) ;;
  when (in_stop inp)
    (lib (ContainerStop (c_id container)) (container_stop B container) ;;
     show (UiSuccess "Stopped.")) ;;
  when (in_restart inp)
    (lib (ContainerRestart (c_id container)) (container_restart B container) ;;
     show (UiSuccess "Restarted.")) ;;
  when (in_remove inp)
    (lib (ContainerRemove (c_id container))
       (container_remove B container true) ;;
     show (UiSuccess "Removed.")) ;;
  when (in_show_stats inp) (show_live_stats container).

(** Lines 84-106: the panel of the selected container. *)
Definition container_panel (inp : Inputs) (filtered : list Container)
  : M W unit :=
  let container_options :=
    dict_of (fun c => c_name c +:+ " (" +:+ c_short_id c +:+ ")") filtered in
  let selected :=
    selectbox (dict_keys container_options) (in_select_container inp) in
  container <- eval (dict_getitem container_options selected) ;;
  show (UiWrite [FStr "**Image:** "; FList (c_image_tags container)]) ;;
  show (UiWrite [FStr ("**Status:** " +:+ c_status container)]) ;;
  container_actions inp container.

(** Lines 115-120: the handler of "Create & Run". *)
Definition create_and_run (client : option DockerClient) (img cmd : string)
  : M W unit :=
  try_except Exception
    (c <- load_client client ;;
     new_c <- lib (ContainersRun img (or_None cmd))
                (containers_run B c img (or_None cmd) true) ;;
     show (UiSuccess ("Started new container: " +:+ c_short_id new_c)))
    (fun e => show (UiError (exn_str e))).

(** Lines 77-120: the containers tab; the value of [containers] is used by
    the last two tabs. *)
Definition tab_containers (inp : Inputs) (client : option DockerClient)
  : M W (list Container) :=
  show (UiSubheader "Containers List") ;;
  containers <- list_containers (in_mode inp) client ;;
  let filtered := filter_containers (in_search inp) containers in
  (if nonempty filtered
   then container_panel inp filtered
   else show (UiInfo [FStr "No containers found."])) ;;
  show (UiSubheader "Create New Container") ;;
  when (in_create inp) (create_and_run client (in_img inp) (in_cmd inp)) ;;
  ret containers.

(** Lines 131-136: the handler of one "Remove {short_id}" button. *)
Definition remove_image (client : option DockerClient) (img : Image)
  : M W unit :=
  try_except Exception
    (c <- load_client client ;;
     lib (ImagesRemove (i_id img)) (images_remove B c (i_id img) true) ;;
     show (UiSuccess "Image removed"))
    (fun e => show (UiError (exn_str e))).

(** Lines 140-145: the handler of "Pull Image". *)
Definition pull_image (client : option DockerClient) (new_image : string)
  : M W unit :=
  try_except Exception
    (c <- load_client client ;;
     lib (ImagesPull new_image) (images_pull B c new_image) ;;
     show (UiSuccess "Image pulled successfully"))
    (fun e => show (UiError (exn_str e))).

(** Lines 123-145: the images tab. *)
Definition tab_images (inp : Inputs) (client : option DockerClient)
  : M W unit :=
  show (UiSubheader "Docker Images") ;;
  images <- list_images (in_mode inp) client ;;
  let filtered_img := filter_images (in_search_img inp) images in
  for_each filtered_img
    (fun img =>
       show (UiWrite [FStr ("ID: " +:+ i_short_id img +:+ " | Tags: ");
                      FList (i_tags img)]) ;;
       when (in_remove_image inp (i_short_id img)) (remove_image client img)) ;;
  show (UiMarkdown "### Pull New Image") ;;
  when (in_pull inp) (pull_image client (in_new_image inp)).

(** Lines 148-157: the logs tab. *)
Definition tab_logs (inp : Inputs) (containers : list Container) : M W unit :=
  match in_mode inp with
  | LocalDockerTCP =>
      if nonempty containers then
        let log_container :=
          selectbox (map c_name containers) (in_log_container inp) in
        c <- eval (next_named containers log_container) ;;
        raw <- lib (ContainerLogs (c_id c)) (container_logs B c 50) ;;
        logs <- eval (bytes_decode B raw) ;;
        show (UiCode logs) ;;
        when (in_download_logs inp)
          (show (UiDownload logs
                   (default "None" log_container +:+ "_logs.txt")))
      else show (UiInfo [FStr "Logs available only in Local TCP mode."])
  | SSHToRemoteDocker =>
      show (UiInfo [FStr "Logs available only in Local TCP mode."])
  end.

(** Lines 165-168: the handler of "Run Command". *)
Definition exec_in_container (client : option DockerClient) (c : Container)
    (command : string) : M W unit :=
  cl <- load_client client ;;
  exec_id <- lib (ExecCreate (c_id c) command)
               (api_exec_create B cl (c_id c) command) ;;
  raw <- lib (ExecStart exec_id) (api_exec_start B cl exec_id) ;;
  output <- eval (bytes_decode B raw) ;;
  show (UiCode output).

(** Lines 160-170: the exec tab. *)
Definition tab_exec (inp : Inputs) (client : option DockerClient)
    (containers : list Container) : M W unit :=
  match in_mode inp with
  | LocalDockerTCP =>
      if nonempty containers then
        let exec_container :=
          selectbox (map c_name containers) (in_exec_container inp) in
        c <- eval (next_named containers exec_container) ;;
        when (in_run_command inp)
          (exec_in_container client c (in_command inp))
      else show (UiInfo [FStr "Exec available only in Local TCP mode."])
  | SSHToRemoteDocker =>
      show (UiInfo [FStr "Exec available only in Local TCP mode."])
  end.

(** Lines 72-170: everything after the connection block. *)
Definition tabs (inp : Inputs) (client : option DockerClient) : M W unit :=
  show (UiMarkdown "---") ;;
  containers <- tab_containers inp client ;;
  tab_images inp client ;;
  tab_logs inp containers ;;
  tab_exec inp client containers.

Definition title : string :=
  "🐳 Advanced Docker Management Panel (with SSH Support)".

Definition main (inp : Inputs) : M W unit :=
  show (UiTitle title) ;;
  client <- connect inp ;;
  tabs inp client.

End Script.

Arguments get_docker_client_via_tcp_body {W} B docker_host _.
Arguments cache_resource {W} f key _.
Arguments get_docker_client_via_tcp {W} B _ _.
Arguments run_ssh_command {W} B host username password command _.
Arguments main {W} B inp _.

(** The state of a fresh server process: nothing cached, nothing displayed,
    no call made. *)
Definition init_state {W} (w : W) : state W := mkState w ∅ 0 [] [].

(** ** A small engine and remote host to run the script against *)

Module Sim.

Record world := mkWorld {
  daemons : list string;           (* URLs at which a daemon answers *)
  containers : list Container;
  faulty : list string;            (* ids whose state the engine cannot change *)
  images : list Image;
  ssh_hosts : list string;         (* hosts accepting the SSH session *)
  ssh_stdout : list Byte.byte;     (* what the remote command prints *)
  ssh_stderr : list Byte.byte
}.

Definition APIError (msg : string) : exn := mkExn true msg.

Definition mem (x : string) (l : list string) : bool :=
  existsb (String.eqb x) l.

Definition with_containers (cs : list Container) (w : world) : world :=
  mkWorld (daemons w) cs (faulty w) (images w) (ssh_hosts w) (ssh_stdout w)
    (ssh_stderr w).

Definition with_images (imgs : list Image) (w : world) : world :=
  mkWorld (daemons w) (containers w) (faulty w) imgs (ssh_hosts w)
    (ssh_stdout w) (ssh_stderr w).

Definition set_status (id status : string) (w : world) : world :=
  with_containers
    (map (fun c => if String.eqb (c_id c) id
                   then mkContainer (c_id c) (c_short_id c) (c_name c)
                          (c_image_tags c) status
                   else c) (containers w)) w.

(** The status the engine holds for a container id. *)
Definition status_of (id : string) (w : world) : option string :=
  c_status <$> find (fun c => String.eqb (c_id c) id) (containers w).

Definition running (id : string) (w : world) : bool :=
  match status_of id w with
  | Some st => String.eqb st "running"
  | None => false
  end.

(** A state change asked of the engine: refused for an unknown or a faulty
    container. *)
Definition change (c : Container) (after : world -> world) (w : world)
  : res unit * world :=
  match status_of (c_id c) w with
  | None =>
      (inl (APIError ("404 Client Error: No such container: " +:+ c_id c)), w)
  | Some _ =>
      if mem (c_id c) (faulty w)
      then (inl (APIError ("500 Server Error: driver failed for " +:+ c_id c)),
            w)
      else (inr tt, after w)
  end.

(** The sample of a running container has a memory usage; that of a stopped
    one has an empty ["memory_stats"]. *)
Definition stats_sample (id : string) (w : world) : pyval :=
  PyDict
    [("memory_stats",
      if running id w then PyDict [("usage", PyInt 52428800)] else PyDict []);
     ("cpu_stats", PyDict [("cpu_usage", PyDict [("total_usage", PyInt 7)])])].

Definition decode (b : list Byte.byte) : res string :=
  if forallb (fun x => (Byte.to_nat x <? 128)%nat) b
  then inr (string_of_list_byte b)
  else inl (mkExn false "'utf-8' codec can't decode byte: invalid start byte").

Definition backend : Backend world :=
  {| docker_client_init := fun url w =>
       if mem url (daemons w) then (inr tt, w)
       else (inl (APIError "Error while fetching server API version"), w);
     docker_ping := fun c w =>
       if mem (base_url c) (daemons w) then (inr tt, w)
       else (inl (mkExn false "Connection refused"), w);
     containers_list := fun _ _ w => (inr (containers w), w);
     container_start := fun c => change c (set_status (c_id c) "running");
     container_stop := fun c => change c (set_status (c_id c) "exited");
     container_restart := fun c => change c (set_status (c_id c) "running");
     container_remove := fun c _ =>
       change c (fun w =>
         with_containers
           (List.filter (fun c' => negb (String.eqb (c_id c') (c_id c)))
              (containers w)) w);
     container_stats := fun c _ w =>
       match status_of (c_id c) w with
       | Some _ => (inr (stats_sample (c_id c) w), w)
       | None =>
           (inl (APIError ("404 Client Error: No such container: " +:+ c_id c)),
            w)
       end;
     containers_run := fun _ image _ _ w =>
       if existsb (fun i => mem image (i_tags i)) (images w)
       then let c := mkContainer "dddddddddddddddd" "dddddddddddd" "fresh"
                       [image] "running" in
            (inr c, with_containers (containers w ++ [c]) w)
       else (inl (APIError ("404 Client Error: pull access denied for "
                            +:+ image)), w);
     images_list := fun _ w => (inr (images w), w);
     images_remove := fun _ id _ w =>
       if existsb (fun i => String.eqb (i_id i) id) (images w)
       then (inr tt,
             with_images
               (List.filter (fun i => negb (String.eqb (i_id i) id)) (images w))
               w)
       else (inl (APIError ("404 Client Error: No such image: " +:+ id)), w);
     images_pull := fun _ ref w =>
       (inl (APIError ("500 Server Error: registry unreachable for " +:+ ref)),
        w);
     container_logs := fun _ _ w => (inr [], w);
     api_exec_create := fun _ id _ w =>
       if running id w then (inr "exec0", w)
       else (inl (APIError ("409 Client Error: Container " +:+ id
                            +:+ " is not running")), w);
     api_exec_start := fun _ _ w => (inr [], w);
     ssh_connect := fun host _ _ _ w =>
       if mem host (ssh_hosts w) then (inr tt, w)
       else (inl (mkExn false "timed out"), w);
     ssh_exec_command := fun _ w => (inr tt, w);
     ssh_stdout_read := fun w => (inr (ssh_stdout w), w);
     ssh_stderr_read := fun w => (inr (ssh_stderr w), w);
     ssh_close := fun w => (inr tt, w);
     bytes_decode := decode |}.

Definition web : Container :=
  mkContainer "aaaaaaaaaaaaaaaa" "aaaaaaaaaaaa" "Web-1" ["nginx:latest"]
    "running".
Definition db : Container :=
  mkContainer "bbbbbbbbbbbbbbbb" "bbbbbbbbbbbb" "db" ["postgres:16"] "exited".

Definition nginx : Image := mkImage "sha256:1111" "sha256:1111" ["nginx:latest"].
Definition tagged_Nginx : Image :=
  mkImage "sha256:2222" "sha256:2222" ["my/Nginx:1"].
Definition dangling : Image := mkImage "sha256:3333" "sha256:3333" [].

(** A daemon on the default URL with a running container and a stopped one
    whose state the engine cannot change; one SSH host that prints a line. *)
Definition w0 : world :=
  mkWorld [DEFAULT_DOCKER_HOST] [web; db] [c_id db]
    [nginx; tagged_Nginx; dangling] ["box"]
    (list_byte_of_string "CONTAINER ID") [].

(** No daemon anywhere, no SSH host. *)
Definition w_down : world := mkWorld [] [] [] [] [] [] [].

(** Reruns in which the second container, [db], is selected and one thing is
    clicked. *)
Definition select_db : Inputs :=
  {| in_mode := LocalDockerTCP;
     in_docker_host := DEFAULT_DOCKER_HOST;
     in_ssh_host := ""; in_ssh_user := ""; in_ssh_pass := "";
     in_test_ssh := false;
     in_search := "";
     in_select_container := 1;
     in_start := false; in_stop := false; in_restart := false;
     in_remove := false;
     in_show_stats := false;
     in_img := "alpine:latest";
     in_cmd := "echo Hello from Docker";
     in_create := false;
     in_search_img := "";
     in_remove_image := fun _ => false;
     in_new_image := "nginx:latest";
     in_pull := false;
     in_log_container := 0;
     in_download_logs := false;
     in_exec_container := 1;
     in_command := "ls -l";
     in_run_command := false |}.

Definition click (start stop restart remove stats create pull run : bool)
  : Inputs :=
  {| in_mode := in_mode select_db;
     in_docker_host := in_docker_host select_db;
     in_ssh_host := in_ssh_host select_db;
     in_ssh_user := in_ssh_user select_db;
     in_ssh_pass := in_ssh_pass select_db;
     in_test_ssh := false;
     in_search := in_search select_db;
     in_select_container := in_select_container select_db;
     in_start := start; in_stop := stop; in_restart := restart;
     in_remove := remove;
     in_show_stats := stats;
     in_img := in_img select_db;
     in_cmd := in_cmd select_db;
     in_create := create;
     in_search_img := in_search_img select_db;
     in_remove_image := in_remove_image select_db;
     in_new_image := in_new_image select_db;
     in_pull := pull;
     in_log_container := in_log_container select_db;
     in_download_logs := false;
     in_exec_container := in_exec_container select_db;
     in_command := in_command select_db;
     in_run_command := run |}.

Definition click_start := click true false false false false false false false.
Definition click_stop := click false true false false false false false false.
Definition click_restart := click false false true false false false false false.
Definition click_remove := click false false false true false false false false.
Definition check_stats := click false false false false true false false false.
Definition click_create := click false false false false false true false false.
Definition click_pull := click false false false false false false true false.
Definition click_run := click false false false false false false false true.

(** SSH mode, "Test SSH Connection" clicked for [host]. *)
Definition test_ssh (host : string) : Inputs :=
  {| in_mode := SSHToRemoteDocker;
     in_docker_host := DEFAULT_DOCKER_HOST;
     in_ssh_host := host; in_ssh_user := "root"; in_ssh_pass := "secret";
     in_test_ssh := true;
     in_search := "web";
     in_select_container := 0;
     in_start := false; in_stop := false; in_restart := false;
     in_remove := false;
     in_show_stats := false;
     in_img := "alpine:latest";
     in_cmd := "echo Hello from Docker";
     in_create := false;
     in_search_img := "";
     in_remove_image := fun _ => false;
     in_new_image := "nginx:latest";
     in_pull := false;
     in_log_container := 0;
     in_download_logs := false;
     in_exec_container := 0;
     in_command := "ls -l";
     in_run_command := false |}.

End Sim.

(** ** What the filters are specified to select *)

(** [selects P l r]: [r] is [l] with exactly the entries that do not satisfy
    [P] deleted; order and repetitions are kept. *)
Inductive selects {A} (P : A -> Prop) : list A -> list A -> Prop :=
| selects_nil : selects P [] []
| selects_keep x l r : P x -> selects P l r -> selects P (x :: l) (x :: r)
| selects_drop x l r : ~ P x -> selects P l r -> selects P (x :: l) r.


(** "some tag contains [s] as a case-sensitive substring" *)
Definition tag_matches (s : string) (i : Image) : Prop :=
  exists tag, In tag (i_tags i) /\ PyStr.substring_of s tag.

(** ** Sessions: reruns of the script in one server process *)

(** One step of a session: a call of the connector, a rerun of the script
    with whatever the user entered, or a change of the engine or the remote
    host on their own. *)
Inductive step {W} (B : Backend W) : state W -> state W -> Prop :=
| step_connect uri s r s' :
    get_docker_client_via_tcp B uri s = (r, s') -> step B s s'
| step_rerun inp s r s' :
    main B inp s = (r, s') -> step B s s'
| step_world s w' :
    step B s (mkState w' (cache s) (next_id s) (ui s) (trace s)).

Definition steps {W} (B : Backend W) : state W -> state W -> Prop :=
  rtc (step B).

Definition reachable {W} (B : Backend W) (s : state W) : Prop :=
  exists w, steps B (init_state w) s.

(** The clients held by the cache table were allocated, and one client
    object is held under one key only. *)
Definition cache_wf {W} (s : state W) : Prop :=
  forall u1 c1 shown1,
    cache s !! u1 = Some (Some c1, shown1) ->
    client_id c1 < next_id s
    /\ forall u2 c2 shown2,
         cache s !! u2 = Some (Some c2, shown2) ->
         client_id c1 = client_id c2 -> u1 = u2.

(** The text [get_docker_client_via_tcp] reports for a failed handshake. *)
Definition connect_error (docker_host : string) (e : exn) : string :=
  "Failed to connect to Docker daemon at " +:+ docker_host
  +:+ "." +:+ nl +:+ "Error: " +:+ exn_str e.

(** The handshake of [get_docker_client_via_tcp] at [uri] in world [w]:
    building the client, then the ping. *)
Definition handshake {W} (B : Backend W) (uri : string) (c : DockerClient)
    (w : W) : res unit * W :=
  match docker_client_init B uri w with
  | (inl e, w') => (inl e, w')
  | (inr _, w') => docker_ping B c w'
  end.

(** ** Relations between the state before and after a piece of the script *)

(** [m] relates the state it starts in to the state it ends in by [R],
    however it ends. *)
Definition respects {W A} (R : state W -> state W -> Prop) (m : M W A)
  : Prop :=
  forall s r s', m s = (r, s') -> R s s'.

(** The cache table and the allocator are as before. *)
Definition same_cache {W} (s s' : state W) : Prop :=
  cache s' = cache s /\ next_id s' = next_id s.

(** Only paramiko was called, and nothing but the display and the world
    changed. *)
Definition only_ssh_calls {W} (s s' : state W) : Prop :=
  exists calls,
    trace s' = trace s ++ calls /\ forallb is_ssh_call calls = true.

(** The table only grows and the allocator only advances. *)
Definition cache_grows {W} (s s' : state W) : Prop :=
  cache s ⊆ cache s' /\ next_id s <= next_id s'.

(** ** An error answering an attempt to operate without a connection *)


(** ** Notions for the properties of the handlers *)

(** The label of a container in the selectbox of the containers tab
    (line 84): [f"{c.name} ({c.short_id})"]. *)
Definition container_label (c : Container) : string :=
  c_name c +:+ " (" +:+ c_short_id c +:+ ")".

(** Calls that ask the engine to change something or to run something. *)
Definition is_mutating (c : call) : bool :=
  match c with
  | ContainerStart _ | ContainerStop _ | ContainerRestart _
  | ContainerRemove _ | ContainersRun _ _ | ImagesRemove _ | ImagesPull _
  | ExecCreate _ _ | ExecStart _ => true
  | _ => false
  end.

(** Calls to the Docker SDK that only read: the handshake, the two
    listings, the stats sample and the log tail. *)
Definition is_read_call (c : call) : bool :=
  negb (is_mutating c) && negb (is_ssh_call c).

(** From [s] to [s'] the calls made all satisfy [p]. *)
Definition makes_only {W} (p : call -> bool) (s s' : state W) : Prop :=
  exists calls, trace s' = trace s ++ calls /\ forallb p calls = true.

(** A rerun in which no button is clicked (the checkboxes, the selections
    and the text inputs are free). *)
Definition no_click (inp : Inputs) : Prop :=
  in_test_ssh inp = false /\ in_start inp = false /\ in_stop inp = false
  /\ in_restart inp = false /\ in_remove inp = false
  /\ in_create inp = false /\ (forall id, in_remove_image inp id = false)
  /\ in_pull inp = false /\ in_download_logs inp = false
  /\ in_run_command inp = false.

(** [m] never ends the rerun: its outcome is a value or an exception. *)
Definition never_halts {W A} (m : M W A) : Prop :=
  forall s, fst (m s) <> Halt.

(** The clients held by the cache table were built for the URL they are
    stored under. *)
Definition cache_urls {W} (s : state W) : Prop :=
  forall u c shown, cache s !! u = Some (Some c, shown) -> base_url c = u.

(** The paramiko calls of one [run_ssh_command], in the order of
    lines 36-40. *)
Definition ssh_calls (host username command : string) : list call :=
  [SshConnect host username; SshExecCommand command; SshReadStdout;
   SshReadStderr; SshClose].


(** What a rerun in SSH mode displays, where [result] is the text of the
    "Test SSH Connection" button if it was clicked. *)
Definition ssh_rerun_display (inp : Inputs) (result : option string)
  : list ui_elem :=
  [UiTitle title]
  ++ match result with Some r => [UiCode r] | None => [] end
  ++ [UiWarning
        "SSH mode uses remote Docker CLI via commands — limited UI features.";
      UiMarkdown "---"; UiSubheader "Containers List";
      UiInfo [FStr "No containers found."];
      UiSubheader "Create New Container"]
  ++ (if in_create inp
      then [UiError (exn_str (UnboundLocalError "client"))] else [])
  ++ [UiSubheader "Docker Images"; UiMarkdown "### Pull New Image"]
  ++ (if in_pull inp
      then [UiError (exn_str (UnboundLocalError "client"))] else [])
  ++ [UiInfo [FStr "Logs available only in Local TCP mode."];
      UiInfo [FStr "Exec available only in Local TCP mode."]].

(** The small engine behind a proxy that accepts the client but drops the
    ping: [client.ping()] raises an exception that is not a
    [DockerException]. *)
Definition backend_dropping_ping : Backend Sim.world :=
  {| docker_client_init := fun _ w => (inr tt, w);
     docker_ping := fun _ w => (inl (mkExn false "Connection aborted"), w);
     containers_list := containers_list Sim.backend;
     container_start := container_start Sim.backend;
     container_stop := container_stop Sim.backend;
     container_restart := container_restart Sim.backend;
     container_remove := container_remove Sim.backend;
     container_stats := container_stats Sim.backend;
     containers_run := containers_run Sim.backend;
     images_list := images_list Sim.backend;
     images_remove := images_remove Sim.backend;
     images_pull := images_pull Sim.backend;
     container_logs := container_logs Sim.backend;
     api_exec_create := api_exec_create Sim.backend;
     api_exec_start := api_exec_start Sim.backend;
     ssh_connect := ssh_connect Sim.backend;
     ssh_exec_command := ssh_exec_command Sim.backend;
     ssh_stdout_read := ssh_stdout_read Sim.backend;
     ssh_stderr_read := ssh_stderr_read Sim.backend;
     ssh_close := ssh_close Sim.backend;
     bytes_decode := bytes_decode Sim.backend |}.

(** * Properties *)

(** ** Strings *)

Section StringFacts.

Import PyStr.

Local Arguments String.append !_ _ / : simpl nomatch.

Lemma prefix_iff (a s : string) :
  String.prefix a s = true <-> exists post, s = String.append a post.
Proof.
  revert s. induction a as [|x a IH]; intros s.
  - split; [intros _; exists s; reflexivity | destruct s; reflexivity].
  - destruct s as [|y s]; simpl.
    + split; [discriminate | intros [post H]; discriminate].
    + destruct (ascii_dec x y) as [->|Hne].
      * rewrite IH. split; intros [post H]; exists post.
        -- now rewrite H.
        -- now inversion H.
      * split; [discriminate | intros [post H]; simpl in H; congruence].
Qed.

Lemma contains_iff (sub s : string) :
  contains sub s = true <-> substring_of sub s.
Proof.
  induction s as [|y s IH]; cbn [contains].
  - destruct (String.prefix sub "") eqn:Hp.
    + split; [intros _ | reflexivity].
      apply prefix_iff in Hp as [post Hp]. exists "", post. exact Hp.
    + split; [discriminate | intros [pre [post H]]].
      destruct pre; simpl in H; [| discriminate].
      assert (String.prefix sub "" = true) by (apply prefix_iff; eauto).
      congruence.
  - destruct (String.prefix sub (String y s)) eqn:Hp.
    + split; [intros _ | reflexivity].
      apply prefix_iff in Hp as [post Hp]. exists "", post. exact Hp.
    + rewrite IH. split.
      * intros [pre [post H]]. exists (String y pre), post. simpl. now rewrite H.
      * intros [pre [post H]]. destruct pre as [|z pre]; simpl in H.
        -- assert (String.prefix sub (String y s) = true)
             by (apply prefix_iff; eauto).
           congruence.
        -- inversion H. exists pre, post. reflexivity.
Qed.








Lemma truthy_false (s : string) : truthy s = false <-> s = "".
Proof. destruct s; simpl; split; congruence. Qed.


End StringFacts.

(** ** Filtering *)

Lemma filter_selects {A} (P : A -> Prop) (p : A -> bool) (l : list A) :
  (forall x, p x = true <-> P x) -> selects P l (List.filter p l).
Proof.
  intros Hp. induction l as [|x l IH]; simpl; [constructor |].
  destruct (p x) eqn:Hx.
  - apply selects_keep; [now apply Hp | exact IH].
  - apply selects_drop; [| exact IH]. rewrite <- Hp. congruence.
Qed.


(** [selects] determines its result. *)
Lemma selects_functional {A} (P : A -> Prop) (l r1 r2 : list A) :
  selects P l r1 -> selects P l r2 -> r1 = r2.
Proof.
  intros H1. revert r2.
  induction H1; intros r2 H2; inversion H2; subst;
    try reflexivity; try contradiction; auto.
  f_equal. auto.
Qed.

Lemma selects_In {A} (P : A -> Prop) (l r : list A) :
  selects P l r -> forall x, In x r <-> In x l /\ P x.
Proof.
  induction 1 as [|x l r Hx _ IH|x l r Hx _ IH]; intros y; simpl.
  - tauto.
  - rewrite IH. split; [intros [->|[? ?]]; auto | intros [[->|?] ?]; auto].
  - rewrite IH. split; [intros [? ?]; auto | intros [[->|?] ?]; tauto].
Qed.

Lemma tag_matches_iff (s : string) (i : Image) :
  PyStr.any (fun tag => PyStr.contains s tag) (i_tags i) = true
  <-> tag_matches s i.
Proof.
  unfold PyStr.any, tag_matches. rewrite existsb_exists.
  split; intros (tag & Hin & H); exists tag; split; auto;
    now apply contains_iff.
Qed.


(** C10. For every image listing and every non-empty query [s], the image
    filter returns exactly the images having some tag that contains [s] as a
    case-sensitive substring, in the listing's order; an image none of whose
    tags contains [s] exactly is excluded, whatever matches up to letter
    case; the empty query returns the full listing. *)
Theorem filter_images_exact (s : string) (images : list Image) :
  s <> "" ->
  selects (tag_matches s) images (filter_images s images)
  /\ (forall i, In i (filter_images s images)
                <-> In i images /\ tag_matches s i)
  /\ (forall i, (forall tag, In tag (i_tags i) -> ~ PyStr.substring_of s tag) ->
                ~ In i (filter_images s images))
  /\ filter_images "" images = images.
Proof.
  intros Hs.
  assert (Hsel : selects (tag_matches s) images (filter_images s images)).
  { unfold filter_images. destruct (PyStr.truthy s) eqn:Ht.
    - apply filter_selects. intros i. apply tag_matches_iff.
    - apply truthy_false in Ht. contradiction. }
  split; [exact Hsel |]. split; [apply (selects_In _ _ _ Hsel) |].
  split; [| reflexivity].
  intros i Hno Hin. apply (selects_In _ _ _ Hsel) in Hin as [_ (tag & Ht & H)].
  exact (Hno tag Ht H).
Qed.

Lemma filter_images_exact_witness :
  "Nginx" <> ""
  /\ selects (tag_matches "Nginx") (Sim.images Sim.w0)
       (filter_images "Nginx" (Sim.images Sim.w0))
  /\ (forall i, In i (filter_images "Nginx" (Sim.images Sim.w0))
                <-> In i (Sim.images Sim.w0) /\ tag_matches "Nginx" i)
  /\ (forall i,
        (forall tag, In tag (i_tags i) -> ~ PyStr.substring_of "Nginx" tag) ->
        ~ In i (filter_images "Nginx" (Sim.images Sim.w0)))
  /\ filter_images "" (Sim.images Sim.w0) = Sim.images Sim.w0.
Proof.
  split; [discriminate |].
  apply (filter_images_exact "Nginx" (Sim.images Sim.w0)). discriminate.
Defined.

(** The two filters on the small engine: the container filter ignores case,
    the image filter does not, and an untagged image passes the empty image
    query only. *)
Example filter_containers_ignores_case :
  filter_containers "WEB" (Sim.containers Sim.w0) = [Sim.web]
  /\ filter_containers "" (Sim.containers Sim.w0) = [Sim.web; Sim.db]
  /\ filter_containers "x" (Sim.containers Sim.w0) = [].
Proof. repeat split. Qed.

Example filter_images_respects_case :
  filter_images "Nginx" (Sim.images Sim.w0) = [Sim.tagged_Nginx]
  /\ filter_images "nginx" (Sim.images Sim.w0) = [Sim.nginx]
  /\ filter_images "" (Sim.images Sim.w0)
     = [Sim.nginx; Sim.tagged_Nginx; Sim.dangling].
Proof. repeat split. Qed.

(** ** Reasoning on the script by parts *)

Section Respects.

Context {W : Type} (R : state W -> state W -> Prop).
Context (R_refl : forall s, R s s).
Context (R_trans : forall s1 s2 s3, R s1 s2 -> R s2 s3 -> R s1 s3).

Lemma respects_ret {A} (a : A) : respects R (ret a).
Proof. intros s r s' H. inversion H. apply R_refl. Qed.

Lemma respects_raise {A} (e : exn) : respects R (@raise W A e).
Proof. intros s r s' H. inversion H. apply R_refl. Qed.

Lemma respects_stop {A} : respects R (@st_stop W A).
Proof. intros s r s' H. inversion H. apply R_refl. Qed.

Lemma respects_eval {A} (x : res A) : respects R (@eval W A x).
Proof. destruct x; [apply respects_raise | apply respects_ret]. Qed.

Lemma respects_bind {A C} (m : M W A) (k : A -> M W C) :
  respects R m -> (forall a, respects R (k a)) -> respects R (bind m k).
Proof.
  intros Hm Hk s r s' H. unfold bind in H.
  destruct (m s) as [[a|e|] s1] eqn:E.
  - eapply R_trans; [eapply Hm | eapply Hk]; eauto.
  - inversion H; subst. eapply Hm; eauto.
  - inversion H; subst. eapply Hm; eauto.
Qed.

(** The same, when the values [m] returns are known to satisfy [P]. *)
Lemma respects_bind_val {A C} (P : A -> Prop) (m : M W A) (k : A -> M W C) :
  respects R m ->
  (forall s a s', m s = (Ret a, s') -> P a) ->
  (forall a, P a -> respects R (k a)) ->
  respects R (bind m k).
Proof.
  intros Hm HP Hk s r s' H. unfold bind in H.
  destruct (m s) as [[a|e|] s1] eqn:E.
  - eapply R_trans; [eapply Hm | eapply Hk]; eauto.
  - inversion H; subst. eapply Hm; eauto.
  - inversion H; subst. eapply Hm; eauto.
Qed.

Lemma respects_try {A} (catches : exn -> bool) (body : M W A)
    (handler : exn -> M W A) :
  respects R body -> (forall e, respects R (handler e)) ->
  respects R (try_except catches body handler).
Proof.
  intros Hb Hh s r s' H. unfold try_except in H.
  destruct (body s) as [[a|e|] s1] eqn:E.
  - inversion H; subst. eapply Hb; eauto.
  - destruct (catches e).
    + eapply R_trans; [eapply Hb | eapply Hh]; eauto.
    + inversion H; subst. eapply Hb; eauto.
  - inversion H; subst. eapply Hb; eauto.
Qed.

Lemma respects_when (b : bool) (m : M W unit) :
  respects R m -> respects R (when b m).
Proof. intros Hm. destruct b; [exact Hm | apply respects_ret]. Qed.

Lemma respects_for_each {A} (l : list A) (body : A -> M W unit) :
  (forall x, respects R (body x)) -> respects R (for_each l body).
Proof.
  intros Hb. induction l as [|x l IH]; simpl.
  - apply respects_ret.
  - apply respects_bind; auto.
Qed.

End Respects.

(** One step of the compositional rules; [prim] proves the primitive
    statements ([show], [lib], [alloc]) for the relation at hand. *)
Ltac respects_step refl trans prim :=
  first
    [ prim
    | apply (respects_ret _ refl)
    | apply (respects_raise _ refl)
    | apply (respects_stop _ refl)
    | apply (respects_eval _ refl)
    | apply (respects_when _ refl)
    | apply (respects_for_each _ refl trans); intros ?
    | apply (respects_bind _ trans); [| intros ?]
    | apply (respects_try _ trans); [| intros ?]
    | match goal with
      | |- respects _ (match ?x with _ => _ end) => destruct x
      end ].

(** *** The cache table is touched by the connector only *)

Section SameCache.

Context {W : Type} (B : Backend W).

Lemma same_cache_refl (s : state W) : same_cache s s.
Proof. split; reflexivity. Qed.

Lemma same_cache_trans (s1 s2 s3 : state W) :
  same_cache s1 s2 -> same_cache s2 s3 -> same_cache s1 s3.
Proof. unfold same_cache. intros [-> ->] [-> ->]. auto. Qed.

Lemma show_same_cache (e : ui_elem) : respects (@same_cache W) (show e).
Proof. intros s r s' H. inversion H. split; reflexivity. Qed.

Lemma lib_same_cache {A} (c : call) (op : W -> res A * W) :
  respects same_cache (lib c op).
Proof.
  intros s r s' H. unfold lib in H.
  destruct (op (world s)) as [[e|a] w']; inversion H; split; reflexivity.
Qed.

Ltac frame :=
  repeat respects_step (@same_cache_refl) (@same_cache_trans)
    ltac:(first [apply show_same_cache | apply lib_same_cache]).

Lemma run_ssh_command_same_cache (host username password command : string) :
  respects same_cache (run_ssh_command B host username password command).
Proof. unfold run_ssh_command, ssh_session. frame. Qed.

Lemma tabs_same_cache (inp : Inputs) (client : option DockerClient) :
  respects same_cache (tabs B inp client).
Proof.
  unfold tabs, tab_containers, tab_images, tab_logs, tab_exec,
    container_panel, container_actions, show_live_stats, create_and_run,
    remove_image,
    pull_image, exec_in_container, list_containers, list_images, load_client.
  frame.
Qed.

End SameCache.

(** *** The connector and its cache table *)

Section Connector.

Context {W : Type} (B : Backend W).

(** What the undecorated function does, by the result of the handshake. *)
Lemma body_result (uri : string) (s : state W) r s' :
  get_docker_client_via_tcp_body B uri s = (r, s') ->
  cache s' = cache s /\ next_id s' = S (next_id s) /\
  match handshake B uri (mkClient (next_id s) uri) (world s) with
  | (inr _, w') =>
      r = Ret (Some (mkClient (next_id s) uri)) /\ ui s' = ui s /\ world s' = w'
  | (inl e, w') =>
      world s' = w' /\
      if exn_docker e
      then r = Ret None /\ ui s' = ui s ++ [UiError (connect_error uri e)]
      else r = Raise e /\ ui s' = ui s
  end.
Proof.
  unfold get_docker_client_via_tcp_body, try_except, bind, alloc, lib, show,
    ret, handshake, DockerException, connect_error. simpl.
  destruct (docker_client_init B uri (world s)) as [[e|[]] w1]; simpl.
  - destruct (exn_docker e); intros H; inversion H; subst; simpl; auto.
  - destruct (docker_ping B _ w1) as [[e|[]] w2]; simpl.
    + destruct (exn_docker e); intros H; inversion H; subst; simpl; auto.
    + intros H; inversion H; subst; simpl; auto.
Qed.

Lemma connect_hit (uri : string) (s : state W) v shown :
  cache s !! uri = Some (v, shown) ->
  get_docker_client_via_tcp B uri s
  = (Ret v, mkState (world s) (cache s) (next_id s) (ui s ++ shown) (trace s)).
Proof.
  intros H. unfold get_docker_client_via_tcp, cache_resource. now rewrite H.
Qed.

(** On a miss the function runs, and its result is stored if it returns. *)
Lemma connect_miss (uri : string) (s : state W) r s' :
  cache s !! uri = None ->
  get_docker_client_via_tcp B uri s = (r, s') ->
  exists r0 s0,
    get_docker_client_via_tcp_body B uri s = (r0, s0) /\ r = r0 /\
    world s' = world s0 /\ next_id s' = next_id s0 /\ ui s' = ui s0 /\
    trace s' = trace s0 /\
    cache s' = match r0 with
               | Ret v => <[uri := (v, drop (length (ui s)) (ui s0))]> (cache s0)
               | _ => cache s0
               end.
Proof.
  intros Hmiss. unfold get_docker_client_via_tcp, cache_resource.
  rewrite Hmiss.
  destruct (get_docker_client_via_tcp_body B uri s) as [[v|e|] s0] eqn:E;
    intros H; inversion H; subst; simpl; eauto 10.
Qed.

(** A value the connector returns is in the table under the URI. *)
Lemma connect_cached (uri : string) (s : state W) v s' :
  get_docker_client_via_tcp B uri s = (Ret v, s') ->
  exists shown, cache s' !! uri = Some (v, shown).
Proof.
  destruct (cache s !! uri) as [[v0 shown]|] eqn:Hc; intros H.
  - rewrite (connect_hit _ _ _ _ Hc) in H. inversion H; subst. simpl. eauto.
  - destruct (connect_miss _ _ _ _ Hc H)
      as (r0 & s0 & _ & <- & _ & _ & _ & _ & ->).
    eexists. apply lookup_insert_eq.
Qed.

Lemma connect_grows (uri : string) (s : state W) r s' :
  get_docker_client_via_tcp B uri s = (r, s') ->
  cache_grows s s' /\ (cache_wf s -> cache_wf s').
Proof.
  destruct (cache s !! uri) as [[v0 shown]|] eqn:Hc; intros H.
  - rewrite (connect_hit _ _ _ _ Hc) in H. inversion H; subst.
    split; [split; simpl; auto |]. intros Hwf. exact Hwf.
  - destruct (connect_miss _ _ _ _ Hc H)
      as (r0 & s0 & Hb & -> & _ & Hn & _ & _ & Hcache).
    destruct (body_result _ _ _ _ Hb) as (Hc0 & Hn0 & Hres).
    rewrite Hc0 in Hcache.
    assert (Hsub : cache s ⊆ cache s').
    { rewrite Hcache. destruct r0; try reflexivity.
      now apply insert_subseteq. }
    split; [split; [exact Hsub | lia] |].
    intros Hwf u1 c1 shown1 H1.
    assert (Hold : forall u c sh,
               cache s' !! u = Some (Some c, sh) ->
               (u = uri /\ r0 = Ret (Some c) /\ c = mkClient (next_id s) uri)
               \/ cache s !! u = Some (Some c, sh)).
    { intros u c sh Hu. rewrite Hcache in Hu. destruct r0 as [v| |]; auto.
      destruct (decide (uri = u)) as [<-|Hne].
      - rewrite lookup_insert_eq in Hu. inversion Hu; subst. left.
        destruct (handshake B uri _ (world s)) as [[e|[]] w'].
        + destruct Hres as [_ Hres]. destruct (exn_docker e);
            destruct Hres as [Hr _]; discriminate.
        + destruct Hres as [Hr _]. inversion Hr. auto.
      - rewrite lookup_insert_ne in Hu by exact Hne. auto. }
    destruct (Hold _ _ _ H1) as [(-> & _ & ->)|H1'].
    + split; [simpl; lia |]. intros u2 c2 shown2 H2 Hid.
      destruct (Hold _ _ _ H2) as [(-> & _)|H2']; [reflexivity |].
      apply Hwf in H2' as [Hlt _]. simpl in Hid. lia.
    + destruct (Hwf _ _ _ H1') as [Hlt Hinj]. split; [lia |].
      intros u2 c2 shown2 H2 Hid.
      destruct (Hold _ _ _ H2) as [(-> & _ & ->)|H2'].
      * simpl in Hid. lia.
      * eapply Hinj; eauto.
Qed.

Lemma cache_grows_refl (s : state W) : cache_grows s s.
Proof. split; [reflexivity | lia]. Qed.

Lemma cache_grows_trans (s1 s2 s3 : state W) :
  cache_grows s1 s2 -> cache_grows s2 s3 -> cache_grows s1 s3.
Proof. intros [H1 L1] [H2 L2]. split; [etransitivity; eauto | lia]. Qed.

Lemma same_cache_grows (s s' : state W) :
  same_cache s s' -> cache_grows s s' /\ (cache_wf s -> cache_wf s').
Proof.
  intros [Hc Hn]. split; [split; [now rewrite Hc | lia] |].
  unfold cache_wf. now rewrite Hc, Hn.
Qed.

(** A rerun of the script touches the table through the connector only. *)
Lemma main_grows (inp : Inputs) (s : state W) r s' :
  main B inp s = (r, s') ->
  cache_grows s s' /\ (cache_wf s -> cache_wf s').
Proof.
  set (R := fun a b : state W => cache_grows a b /\ (cache_wf a -> cache_wf b)).
  assert (R_refl : forall a, R a a)
    by (intros a; split; [apply cache_grows_refl | auto]).
  assert (R_trans : forall a b c, R a b -> R b c -> R a c).
  { intros a b c [G1 I1] [G2 I2]. split; [eapply cache_grows_trans; eauto | auto]. }
  assert (weaken : forall A (m : M W A), respects same_cache m -> respects R m).
  { intros A m Hm a ra b Hab. apply same_cache_grows. eapply Hm; eauto. }
  enough (respects R (main B inp)) as Hmain by (eapply Hmain; eauto).
  unfold main. apply (respects_bind _ R_trans).
  { apply weaken, show_same_cache. }
  intros _. apply (respects_bind _ R_trans).
  - unfold connect. destruct (in_mode inp).
    + apply (respects_bind _ R_trans).
      * intros a ra b Hab. eapply connect_grows; eauto.
      * intros [c|]; [apply (respects_ret _ R_refl) | apply (respects_stop _ R_refl)].
    + apply weaken.
      repeat respects_step (@same_cache_refl W) (@same_cache_trans W)
        ltac:(first [apply show_same_cache | apply run_ssh_command_same_cache]).
  - intros client. apply weaken, tabs_same_cache.
Qed.

Lemma step_grows (s s' : state W) :
  step B s s' -> cache_grows s s' /\ (cache_wf s -> cache_wf s').
Proof.
  intros [uri s0 r s1 H|inp s0 r s1 H|s0 w'].
  - eapply connect_grows; eauto.
  - eapply main_grows; eauto.
  - apply same_cache_grows. split; reflexivity.
Qed.

Lemma steps_grows (s s' : state W) :
  steps B s s' -> cache_grows s s' /\ (cache_wf s -> cache_wf s').
Proof.
  induction 1 as [s|s1 s2 s3 H12 _ [G I]].
  - split; [apply cache_grows_refl | auto].
  - destruct (step_grows _ _ H12) as [G1 I1].
    split; [eapply cache_grows_trans; eauto | auto].
Qed.

Lemma init_wf (w : W) : cache_wf (init_state w).
Proof. intros u c sh H. simpl in H. rewrite lookup_empty in H. discriminate. Qed.

Lemma reachable_wf (s : state W) : reachable B s -> cache_wf s.
Proof. intros [w H]. apply (steps_grows _ _ H), init_wf. Qed.

(** An entry of the table stays, with its value, in every later state. *)
Lemma steps_keep (s s' : state W) (uri : string) (entry : option DockerClient * list ui_elem) :
  steps B s s' -> cache s !! uri = Some entry -> cache s' !! uri = Some entry.
Proof.
  intros H Hc. destruct (steps_grows _ _ H) as [[Hsub _] _].
  eapply lookup_weaken; eauto.
Qed.

End Connector.

(** C6. In a session, once [get_docker_client_via_tcp] has returned a client
    for a URI (the URI was reachable), any later call with the same URI
    returns that very client object, from the table entry stored under the
    URI string, with no call to the library (no second handshake); a later
    call with a different URI never returns that client object. *)
Theorem connection_memoized {W} (B : Backend W) (s s1 s2 s3 : state W)
    (u1 u2 : string) (c1 : DockerClient)
    (r : outcome (option DockerClient)) :
  reachable B s ->
  get_docker_client_via_tcp B u1 s = (Ret (Some c1), s1) ->
  steps B s1 s2 ->
  get_docker_client_via_tcp B u2 s2 = (r, s3) ->
  (exists shown, cache s1 !! u1 = Some (Some c1, shown))
  /\ (u1 = u2 ->
      r = Ret (Some c1) /\ trace s3 = trace s2 /\ world s3 = world s2)
  /\ (u1 <> u2 ->
      forall c2, r = Ret (Some c2) -> client_id c2 <> client_id c1).
Proof.
  intros Hreach H1 Hsteps H2.
  destruct (connect_cached B _ _ _ _ H1) as [shown Hc1].
  pose proof (steps_keep B _ _ _ _ Hsteps Hc1) as Hc2.
  split; [eauto |]. split.
  - intros <-. rewrite (connect_hit B _ _ _ _ Hc2) in H2.
    inversion H2; subst. auto.
  - intros Hne c2 -> Hid.
    assert (Hwf3 : cache_wf s3).
    { apply (connect_grows B _ _ _ _ H2), (steps_grows B _ _ Hsteps),
        (connect_grows B _ _ _ _ H1), reachable_wf with (B := B), Hreach. }
    destruct (connect_cached B _ _ _ _ H2) as [shown2 Hc3].
    destruct (connect_grows B _ _ _ _ H2) as [[Hsub _] _].
    pose proof (lookup_weaken _ _ _ _ Hc2 Hsub) as Hc13.
    destruct (Hwf3 _ _ _ Hc13) as [_ Hinj].
    apply Hne. eapply Hinj; eauto.
Qed.

Lemma connection_memoized_witness :
  let s := init_state Sim.w0 in
  let c := mkClient 0 DEFAULT_DOCKER_HOST in
  let s1 := snd (get_docker_client_via_tcp Sim.backend DEFAULT_DOCKER_HOST s) in
  let s2 := snd (main Sim.backend default_inputs s1) in
  reachable Sim.backend s
  /\ get_docker_client_via_tcp Sim.backend DEFAULT_DOCKER_HOST s
     = (Ret (Some c), s1)
  /\ steps Sim.backend s1 s2
  /\ fst (get_docker_client_via_tcp Sim.backend DEFAULT_DOCKER_HOST s2)
     = Ret (Some c)
  /\ trace (snd (get_docker_client_via_tcp Sim.backend DEFAULT_DOCKER_HOST s2))
     = trace s2.
Proof.
  intros s c s1 s2.
  assert (Hreach : reachable Sim.backend s) by (exists Sim.w0; apply rtc_refl).
  assert (H1 : get_docker_client_via_tcp Sim.backend DEFAULT_DOCKER_HOST s
               = (Ret (Some c), s1)) by (vm_compute; reflexivity).
  assert (Hsteps : steps Sim.backend s1 s2).
  { apply rtc_once.
    apply (step_rerun Sim.backend default_inputs s1
             (fst (main Sim.backend default_inputs s1)) s2).
    apply surjective_pairing. }
  destruct (connection_memoized Sim.backend s s1 s2
              (snd (get_docker_client_via_tcp Sim.backend DEFAULT_DOCKER_HOST s2))
              DEFAULT_DOCKER_HOST DEFAULT_DOCKER_HOST c
              (fst (get_docker_client_via_tcp Sim.backend DEFAULT_DOCKER_HOST s2))
              Hreach H1 Hsteps (surjective_pairing _))
    as (_ & Hsame & _).
  destruct (Hsame eq_refl) as (Hr & Ht & _).
  exact (conj Hreach (conj H1 (conj Hsteps (conj Hr Ht)))).
Defined.

(** C9. When the handshake of [get_docker_client_via_tcp] fails with a
    [DockerException] for a URI that is not in the table, the function
    reports the error and returns [None], and that [None] is stored under the
    URI: in every later state of the session a call with that URI returns
    [None] without any call to the library, whatever the engine then is. *)
Theorem failed_connection_memoized {W} (B : Backend W) (uri : string)
    (s : state W) (e : exn) (w' : W) :
  cache s !! uri = None ->
  handshake B uri (mkClient (next_id s) uri) (world s) = (inl e, w') ->
  exn_docker e = true ->
  exists s1,
    get_docker_client_via_tcp B uri s = (Ret None, s1)
    /\ ui s1 = ui s ++ [UiError (connect_error uri e)]
    /\ cache s1 !! uri = Some (None, [UiError (connect_error uri e)])
    /\ forall s2, steps B s1 s2 ->
         exists s3,
           get_docker_client_via_tcp B uri s2 = (Ret None, s3)
           /\ trace s3 = trace s2 /\ world s3 = world s2
           /\ cache s3 = cache s2.
Proof.
  intros Hmiss Hh He.
  destruct (get_docker_client_via_tcp B uri s) as [r s1] eqn:Hget.
  destruct (connect_miss B _ _ _ _ Hmiss Hget)
    as (r0 & s0 & Hb & -> & _ & _ & Hui & _ & Hcache).
  destruct (body_result B _ _ _ _ Hb) as (_ & _ & Hres).
  rewrite Hh, He in Hres. destruct Hres as (_ & -> & Hui0).
  assert (Hentry : cache s1 !! uri = Some (None, [UiError (connect_error uri e)])).
  { rewrite Hcache, lookup_insert_eq, Hui0, drop_app_length. reflexivity. }
  exists s1. split; [reflexivity |]. split; [congruence |].
  split; [exact Hentry |].
  intros s2 Hsteps. eexists. split.
  - apply connect_hit. eapply steps_keep; eauto.
  - simpl. auto.
Qed.

Lemma failed_connection_memoized_witness :
  let s := init_state Sim.w_down in
  let e := Sim.APIError "Error while fetching server API version" in
  cache s !! DEFAULT_DOCKER_HOST = None
  /\ handshake Sim.backend DEFAULT_DOCKER_HOST
       (mkClient (next_id s) DEFAULT_DOCKER_HOST) (world s)
     = (inl e, Sim.w_down)
  /\ exn_docker e = true
  /\ exists s1,
       get_docker_client_via_tcp Sim.backend DEFAULT_DOCKER_HOST s
       = (Ret None, s1)
       /\ cache s1 !! DEFAULT_DOCKER_HOST
          = Some (None, [UiError (connect_error DEFAULT_DOCKER_HOST e)]).
Proof.
  intros s e.
  assert (H0 : cache s !! DEFAULT_DOCKER_HOST = None) by apply lookup_empty.
  assert (H1 : handshake Sim.backend DEFAULT_DOCKER_HOST
                 (mkClient (next_id s) DEFAULT_DOCKER_HOST) (world s)
               = (inl e, Sim.w_down)) by (vm_compute; reflexivity).
  assert (H2 : exn_docker e = true) by reflexivity.
  destruct (failed_connection_memoized Sim.backend DEFAULT_DOCKER_HOST s e
              Sim.w_down H0 H1 H2) as (s1 & Hget & _ & Hc & _).
  exact (conj H0 (conj H1 (conj H2 (ex_intro _ s1 (conj Hget Hc))))).
Defined.

(** *** The remote shell *)

Section Ssh.

Context {W : Type} (B : Backend W).

Lemma only_ssh_calls_refl (s : state W) : only_ssh_calls s s.
Proof. exists []. split; [now rewrite app_nil_r | reflexivity]. Qed.

Lemma only_ssh_calls_trans (s1 s2 s3 : state W) :
  only_ssh_calls s1 s2 -> only_ssh_calls s2 s3 -> only_ssh_calls s1 s3.
Proof.
  intros (l1 & H1 & F1) (l2 & H2 & F2). exists (l1 ++ l2). split.
  - now rewrite H2, H1, app_assoc.
  - now rewrite forallb_app, F1, F2.
Qed.

Lemma show_only_ssh_calls (e : ui_elem) : respects (@only_ssh_calls W) (show e).
Proof.
  intros s r s' H. inversion H. exists []. simpl. now rewrite app_nil_r.
Qed.

Lemma lib_only_ssh_calls {A} (c : call) (op : W -> res A * W) :
  is_ssh_call c = true -> respects only_ssh_calls (lib c op).
Proof.
  intros Hc s r s' H. unfold lib in H.
  destruct (op (world s)) as [[e|a] w']; inversion H; exists [c]; simpl;
    now rewrite Hc.
Qed.

Ltac ssh_only :=
  repeat respects_step (@only_ssh_calls_refl) (@only_ssh_calls_trans)
    ltac:(first [ apply show_only_ssh_calls
                | apply lib_only_ssh_calls; reflexivity ]).

Lemma run_ssh_command_only_ssh_calls (host username password command : string) :
  respects only_ssh_calls (run_ssh_command B host username password command).
Proof. unfold run_ssh_command, ssh_session. ssh_only. Qed.

(** With [client] unbound, the guarded handlers display the
    [UnboundLocalError]. *)
Lemma create_and_run_unbound (img cmd : string) :
  create_and_run B None img cmd
  = show (UiError (exn_str (UnboundLocalError "client"))).
Proof. reflexivity. Qed.

Lemma pull_image_unbound (new_image : string) :
  pull_image B None new_image
  = show (UiError (exn_str (UnboundLocalError "client"))).
Proof. reflexivity. Qed.

Lemma filter_containers_nil (search : string) : filter_containers search [] = [].
Proof. unfold filter_containers. now destruct (PyStr.truthy search). Qed.

Lemma filter_images_nil (search : string) : filter_images search [] = [].
Proof. unfold filter_images. now destruct (PyStr.truthy search). Qed.

Lemma respects_bind_ret {A C} (R : state W -> state W -> Prop) (a : A)
    (k : A -> M W C) :
  respects R (k a) -> respects R (bind (ret a) k).
Proof. intros H. exact H. Qed.

Lemma tab_containers_ssh (inp : Inputs) :
  in_mode inp = SSHToRemoteDocker ->
  respects only_ssh_calls (tab_containers B inp None).
Proof.
  intros Hmode. unfold tab_containers, list_containers. rewrite Hmode.
  apply (respects_bind _ only_ssh_calls_trans); [apply show_only_ssh_calls |].
  intros _. apply respects_bind_ret. rewrite filter_containers_nil.
  rewrite create_and_run_unbound. simpl. ssh_only.
Qed.

Lemma tab_containers_ssh_nil (inp : Inputs) (s : state W) a s' :
  in_mode inp = SSHToRemoteDocker ->
  tab_containers B inp None s = (Ret a, s') -> a = [].
Proof.
  intros Hmode. unfold tab_containers, list_containers. rewrite Hmode.
  cbv [bind ret show when].
  rewrite filter_containers_nil, create_and_run_unbound. cbv [nonempty show].
  destruct (in_create inp); intros H; now inversion H.
Qed.

Lemma tab_images_ssh (inp : Inputs) :
  in_mode inp = SSHToRemoteDocker ->
  respects only_ssh_calls (tab_images B inp None).
Proof.
  intros Hmode. unfold tab_images, list_images. rewrite Hmode.
  apply (respects_bind _ only_ssh_calls_trans); [apply show_only_ssh_calls |].
  intros _. apply respects_bind_ret. rewrite filter_images_nil.
  rewrite pull_image_unbound. simpl. ssh_only.
Qed.

(** In SSH mode [client] is unbound and the tabs call no library. *)
Lemma tabs_ssh (inp : Inputs) :
  in_mode inp = SSHToRemoteDocker ->
  respects only_ssh_calls (tabs B inp None).
Proof.
  intros Hmode. unfold tabs.
  apply (respects_bind _ only_ssh_calls_trans); [apply show_only_ssh_calls |].
  intros _.
  apply (respects_bind_val _ only_ssh_calls_trans (fun a => a = [])).
  - now apply tab_containers_ssh.
  - intros s a s'. now apply tab_containers_ssh_nil.
  - intros a ->.
    apply (respects_bind _ only_ssh_calls_trans); [now apply tab_images_ssh |].
    intros _. unfold tab_logs, tab_exec. rewrite Hmode. ssh_only.
Qed.

Lemma connect_ssh_unbound (inp : Inputs) (s : state W) a s' :
  in_mode inp = SSHToRemoteDocker ->
  connect B inp s = (Ret a, s') -> a = None.
Proof.
  intros Hmode. unfold connect. rewrite Hmode.
  unfold bind, when, ret, show.
  destruct (in_test_ssh inp); [| intros H; now inversion H].
  destruct (run_ssh_command B _ _ _ _ s) as [[txt|e|] s1];
    intros H; now inversion H.
Qed.

Lemma connect_ssh (inp : Inputs) :
  in_mode inp = SSHToRemoteDocker ->
  respects only_ssh_calls (connect B inp).
Proof.
  intros Hmode. unfold connect. rewrite Hmode.
  repeat respects_step (@only_ssh_calls_refl) (@only_ssh_calls_trans)
    ltac:(first [ apply show_only_ssh_calls
                | apply run_ssh_command_only_ssh_calls ]).
Qed.

(** In SSH mode a rerun calls paramiko only. *)
Lemma main_ssh (inp : Inputs) :
  in_mode inp = SSHToRemoteDocker ->
  respects only_ssh_calls (main B inp).
Proof.
  intros Hmode. unfold main.
  apply (respects_bind _ only_ssh_calls_trans); [apply show_only_ssh_calls |].
  intros _.
  apply (respects_bind_val _ only_ssh_calls_trans (fun a => a = None)).
  - now apply connect_ssh.
  - intros s a s'. now apply connect_ssh_unbound.
  - intros a ->. now apply tabs_ssh.
Qed.



End Ssh.



(** C8. In SSH mode the listing of line 78 and the listing of line 125 are
    empty, and so are the filtered lists, for every filter string and
    whatever the remote engine holds; a rerun in SSH mode calls paramiko
    only, never the Docker SDK. *)
Theorem ssh_listings_empty {W} (B : Backend W) (inp : Inputs)
    (client : option DockerClient) (s : state W) :
  in_mode inp = SSHToRemoteDocker ->
  (forall search,
     (containers <- list_containers B (in_mode inp) client ;;
      ret (filter_containers search containers)) s = (Ret [], s))
  /\ (forall search_img,
        (images <- list_images B (in_mode inp) client ;;
         ret (filter_images search_img images)) s = (Ret [], s))
  /\ (forall r s', main B inp s = (r, s') -> only_ssh_calls s s').
Proof.
  intros Hmode. rewrite Hmode. split; [| split].
  - intros search. unfold bind, list_containers, ret, filter_containers.
    now destruct (PyStr.truthy search).
  - intros search. unfold bind, list_images, ret, filter_images.
    now destruct (PyStr.truthy search).
  - intros r s' H. eapply main_ssh; eauto.
Qed.

Lemma ssh_listings_empty_witness :
  in_mode (Sim.test_ssh "box") = SSHToRemoteDocker
  /\ (containers <- list_containers Sim.backend SSHToRemoteDocker None ;;
      ret (filter_containers "web" containers)) (init_state Sim.w0)
     = (Ret [], init_state Sim.w0)
  /\ only_ssh_calls (init_state Sim.w0)
       (snd (main Sim.backend (Sim.test_ssh "box") (init_state Sim.w0))).
Proof.
  split; [reflexivity |].
  pose proof (ssh_listings_empty Sim.backend (Sim.test_ssh "box") None
                (init_state Sim.w0) eq_refl) as (Hc & _ & Hm).
  split; [exact (Hc "web") |].
  exact (Hm _ _ (surjective_pairing _)).
Defined.

(** *** The gate after the connector *)




(** *** Handlers with and without [try] *)

Section Handlers.

Context {W : Type} (B : Backend W).

(** "Create & Run", "Pull Image" and "Remove {short_id}" catch what the
    library raises and display its message. *)
Lemma create_and_run_caught (c : DockerClient) (img cmd : string)
    (s : state W) :
  create_and_run B (Some c) img cmd s
  = match containers_run B c img (or_None cmd) true (world s) with
    | (inl e, w') =>
        (Ret tt,
         mkState w' (cache s) (next_id s) (ui s ++ [UiError (exn_str e)])
           (trace s ++ [ContainersRun img (or_None cmd)]))
    | (inr new_c, w') =>
        (Ret tt,
         mkState w' (cache s) (next_id s)
           (ui s ++ [UiSuccess ("Started new container: " +:+ c_short_id new_c)])
           (trace s ++ [ContainersRun img (or_None cmd)]))
    end.
Proof.
  unfold create_and_run, try_except, bind, load_client, lib, show, ret. simpl.
  now destruct (containers_run B c img (or_None cmd) true (world s))
    as [[e|new_c] w'].
Qed.



(** The four buttons have no [try]: what the library raises for the first
    button clicked leaves the handler, and nothing is displayed. *)
Lemma container_actions_raise (inp : Inputs) (c : Container) (s : state W)
    (e : exn) (w' : W) :
  (in_start inp = true /\ container_start B c (world s) = (inl e, w'))
  \/ (in_start inp = false /\ in_stop inp = true
      /\ container_stop B c (world s) = (inl e, w'))
  \/ (in_start inp = false /\ in_stop inp = false /\ in_restart inp = true
      /\ container_restart B c (world s) = (inl e, w'))
  \/ (in_start inp = false /\ in_stop inp = false /\ in_restart inp = false
      /\ in_remove inp = true
      /\ container_remove B c true (world s) = (inl e, w')) ->
  fst (container_actions B inp c s) = Raise e
  /\ world (snd (container_actions B inp c s)) = w'
  /\ ui (snd (container_actions B inp c s)) = ui s.
Proof.
  unfold container_actions, bind, when, lib, ret.
  intros [(-> & ->)|[(-> & -> & ->)|[(-> & -> & -> & ->)
                                        |(-> & -> & -> & -> & ->)]]];
    simpl; auto.
Qed.


(** ... and raises what the library raises otherwise: there is no [try]. *)
Lemma show_live_stats_raises (c : Container) (s : state W) (e : exn) (w' : W) :
  container_stats B c false (world s) = (inl e, w') ->
  fst (show_live_stats B c s) = Raise e.
Proof. intros H. unfold show_live_stats, bind, lib. now rewrite H. Qed.

Lemma exec_in_container_raises (cl : DockerClient) (c : Container)
    (command : string) (s : state W) (e : exn) (w' : W) :
  api_exec_create B cl (c_id c) command (world s) = (inl e, w') ->
  exec_in_container B (Some cl) c command s
  = (Raise e,
     mkState w' (cache s) (next_id s) (ui s)
       (trace s ++ [ExecCreate (c_id c) command])).
Proof.
  intros H. unfold exec_in_container, bind, load_client, lib, ret. simpl.
  now rewrite H.
Qed.

End Handlers.

(** C1, where the script departs from it. "Start", "Stop", "Restart" and
    "Remove" on a container whose state the engine refuses to change: the
    engine's exception leaves [main], and no error text is displayed. *)
Theorem container_actions_propagate :
  let refused :=
    Sim.APIError ("500 Server Error: driver failed for " +:+ c_id Sim.db) in
  fst (main Sim.backend Sim.click_start (init_state Sim.w0)) = Raise refused
  /\ fst (main Sim.backend Sim.click_stop (init_state Sim.w0)) = Raise refused
  /\ fst (main Sim.backend Sim.click_restart (init_state Sim.w0)) = Raise refused
  /\ fst (main Sim.backend Sim.click_remove (init_state Sim.w0)) = Raise refused
  /\ forall msg,
       ~ In (UiError msg)
           (ui (snd (main Sim.backend Sim.click_start (init_state Sim.w0)))).
Proof.
  cbv zeta.
  split; [vm_compute; reflexivity |]. split; [vm_compute; reflexivity |].
  split; [vm_compute; reflexivity |]. split; [vm_compute; reflexivity |].
  intros msg. vm_compute. intuition discriminate.
Qed.

(** C2, where the script departs from it. "Show Live Stats" on a stopped
    container, whose sample has no memory usage: the [KeyError] of
    [stats["memory_stats"]["usage"]] leaves [main]; nothing is reported. *)
Theorem stats_of_stopped_container_raise :
  Sim.stats_sample (c_id Sim.db) Sim.w0
  = PyDict [("memory_stats", PyDict []);
            ("cpu_stats",
             PyDict [("cpu_usage", PyDict [("total_usage", PyInt 7)])])]
  /\ fst (main Sim.backend Sim.check_stats (init_state Sim.w0))
     = Raise (KeyError "usage")
  /\ forall msg,
       ~ In (UiError msg)
           (ui (snd (main Sim.backend Sim.check_stats (init_state Sim.w0)))).
Proof.
  split; [vm_compute; reflexivity |]. split; [vm_compute; reflexivity |].
  intros msg. vm_compute. intuition discriminate.
Qed.

(** C3, where the script departs from it. "Run Command" on a stopped
    container: the engine's refusal leaves [main] as an exception and no
    error text is displayed; the status the engine holds is unchanged. *)
Theorem exec_on_stopped_container_raises :
  c_status Sim.db = "exited"
  /\ fst (main Sim.backend Sim.click_run (init_state Sim.w0))
     = Raise (Sim.APIError
                ("409 Client Error: Container " +:+ c_id Sim.db
                 +:+ " is not running"))
  /\ (forall msg,
        ~ In (UiError msg)
            (ui (snd (main Sim.backend Sim.click_run (init_state Sim.w0)))))
  /\ Sim.status_of (c_id Sim.db)
       (world (snd (main Sim.backend Sim.click_run (init_state Sim.w0))))
     = Some "exited".
Proof.
  split; [vm_compute; reflexivity |]. split; [vm_compute; reflexivity |].
  split; [| vm_compute; reflexivity].
  intros msg. vm_compute. intuition discriminate.
Qed.

(** Sibling handlers on the same engine: the failure of "Create & Run" and of
    "Pull Image" is displayed and the rerun goes on to its end. *)
Example guarded_siblings :
  fst (main Sim.backend Sim.click_create (init_state Sim.w0)) = Ret tt
  /\ In (UiError "404 Client Error: pull access denied for alpine:latest")
       (ui (snd (main Sim.backend Sim.click_create (init_state Sim.w0))))
  /\ fst (main Sim.backend Sim.click_pull (init_state Sim.w0)) = Ret tt
  /\ In (UiError "500 Server Error: registry unreachable for nginx:latest")
       (ui (snd (main Sim.backend Sim.click_pull (init_state Sim.w0)))).
Proof. vm_compute. intuition. Qed.

(** ** Selections *)

Section Selections.

Lemma selectbox_member (options : list string) (i : nat) :
  options <> [] ->
  exists o, selectbox options i = Some o /\ In o options
            /\ (forall o', nth_error options i = Some o' -> o = o').
Proof.
  intros Hne. unfold selectbox.
  destruct (nth_error options i) as [o|] eqn:Hi.
  - exists o. split; [reflexivity |]. split; [eapply nth_error_In; eauto |].
    now intros o' [= ->].
  - destruct options as [|o options]; [contradiction |].
    exists o. simpl. split; [reflexivity |]. split; [auto | discriminate].
Qed.

Lemma nonempty_true {A} (l : list A) : nonempty l = true <-> l <> [].
Proof. destruct l; simpl; split; congruence. Qed.

(** The first container bearing a name that occurs in the list. *)
Lemma find_named_first (containers : list Container) (name : string) :
  In name (map c_name containers) ->
  exists c pre post,
    find (fun cc => String.eqb (c_name cc) name) containers = Some c
    /\ containers = pre ++ c :: post /\ c_name c = name
    /\ Forall (fun c' => c_name c' <> name) pre.
Proof.
  induction containers as [|x l IH]; simpl; [contradiction |].
  intros Hin. destruct (String.eqb_spec (c_name x) name) as [Heq|Hne].
  - exists x, [], l. auto.
  - destruct Hin as [Hin|Hin]; [contradiction |].
    destruct (IH Hin) as (c & pre & post & Hf & -> & Hc & Hpre).
    exists c, (x :: pre), post. auto.
Qed.

(** X1. In the logs tab and in the exec tab (lines 150-151 and 162-163), with
    a non-empty listing the [next(...)] over the containers never raises
    [StopIteration]: it returns the first container of the listing that bears
    the name the selectbox returned, and that name is the name of the
    container at the chosen index. *)
Theorem selected_container_found (containers : list Container) (i : nat) :
  nonempty containers = true ->
  exists name c pre post,
    selectbox (map c_name containers) i = Some name
    /\ next_named containers (Some name) = inr c
    /\ containers = pre ++ c :: post
    /\ c_name c = name
    /\ Forall (fun c' => c_name c' <> name) pre
    /\ (forall c0, nth_error containers i = Some c0 -> c_name c0 = name).
Proof.
  intros Hne. apply nonempty_true in Hne.
  destruct (selectbox_member (map c_name containers) i)
    as (name & Hsel & Hin & Hnth).
  { destruct containers; [contradiction | discriminate]. }
  destruct (find_named_first containers name Hin)
    as (c & pre & post & Hf & Hl & Hc & Hpre).
  exists name, c, pre, post. unfold next_named. rewrite Hf.
  repeat (split; [assumption || reflexivity |]).
  intros c0 H0. symmetry. apply Hnth. rewrite nth_error_map, H0. reflexivity.
Qed.

Lemma selected_container_found_witness :
  nonempty (Sim.containers Sim.w0) = true
  /\ exists name c pre post,
       selectbox (map c_name (Sim.containers Sim.w0)) 1 = Some name
       /\ next_named (Sim.containers Sim.w0) (Some name) = inr c
       /\ Sim.containers Sim.w0 = pre ++ c :: post
       /\ c_name c = name
       /\ Forall (fun c' => c_name c' <> name) pre
       /\ (forall c0, nth_error (Sim.containers Sim.w0) 1 = Some c0 ->
                      c_name c0 = name).
Proof.
  split; [reflexivity |].
  apply (selected_container_found (Sim.containers Sim.w0) 1). reflexivity.
Defined.

(** *** The dictionary of the containers tab *)

Lemma assoc_dict_set_eq {V} (k : string) (v : V) (d : list (string * V)) :
  assoc k (dict_set k v d) = Some v.
Proof.
  induction d as [|[k' v'] d IH]; simpl.
  - now rewrite String.eqb_refl.
  - destruct (String.eqb_spec k' k) as [->|Hne]; simpl.
    + now rewrite String.eqb_refl.
    + destruct (String.eqb_spec k' k); [contradiction | exact IH].
Qed.

Lemma assoc_dict_set_ne {V} (k k' : string) (v : V) (d : list (string * V)) :
  k <> k' -> assoc k' (dict_set k v d) = assoc k' d.
Proof.
  intros Hne. induction d as [|[k0 v0] d IH]; simpl.
  - destruct (String.eqb_spec k k'); [contradiction | reflexivity].
  - destruct (String.eqb_spec k0 k) as [->|H0]; simpl.
    + destruct (String.eqb_spec k k'); [contradiction | reflexivity].
    + now rewrite IH.
Qed.

Lemma dict_keys_set_old {V} (k : string) (v : V) (d : list (string * V)) :
  In k (dict_keys d) -> dict_keys (dict_set k v d) = dict_keys d.
Proof.
  unfold dict_keys. induction d as [|[k0 v0] d IH]; simpl; [contradiction |].
  intros Hin. destruct (String.eqb_spec k0 k) as [->|H0]; simpl; [reflexivity |].
  f_equal. apply IH. destruct Hin; [contradiction | assumption].
Qed.

Lemma dict_keys_set_new {V} (k : string) (v : V) (d : list (string * V)) :
  ~ In k (dict_keys d) -> dict_keys (dict_set k v d) = dict_keys d ++ [k].
Proof.
  unfold dict_keys. induction d as [|[k0 v0] d IH]; simpl; [reflexivity |].
  intros Hin. destruct (String.eqb_spec k0 k) as [->|H0]; simpl.
  - exfalso. auto.
  - f_equal. apply IH. auto.
Qed.

Lemma dict_of_snoc {V} (key : V -> string) (l : list V) (x : V) :
  dict_of key (l ++ [x]) = dict_set (key x) x (dict_of key l).
Proof. unfold dict_of. now rewrite fold_left_app. Qed.

(** The keys are the labels of the list. *)
Lemma dict_of_keys_in {V} (key : V -> string) (l : list V) (k : string) :
  In k (dict_keys (dict_of key l)) <-> In k (map key l).
Proof.
  induction l as [|x l IH] using rev_ind; [reflexivity |].
  rewrite dict_of_snoc, map_app, in_app_iff. simpl.
  destruct (in_dec string_dec (key x) (dict_keys (dict_of key l))) as [Hin|Hnin].
  - rewrite dict_keys_set_old by exact Hin. rewrite IH.
    split; [tauto | intros [H|[<-|[]]]; [exact H | now apply IH]].
  - rewrite dict_keys_set_new by exact Hnin. rewrite in_app_iff, IH.
    reflexivity.
Qed.

(** A label of the list is bound to the last entry that bears it. *)
Lemma dict_of_last {V} (key : V -> string) (l : list V) (k : string) :
  In k (map key l) ->
  exists x pre post,
    assoc k (dict_of key l) = Some x
    /\ l = pre ++ x :: post /\ key x = k
    /\ Forall (fun y => key y <> k) post.
Proof.
  induction l as [|x l IH] using rev_ind; [contradiction |].
  rewrite dict_of_snoc, map_app, in_app_iff. simpl. intros Hin.
  destruct (string_dec (key x) k) as [<-|Hne].
  - exists x, l, []. rewrite assoc_dict_set_eq. auto.
  - destruct Hin as [Hin|[Hx|[]]]; [| contradiction].
    destruct (IH Hin) as (y & pre & post & Ha & -> & Hy & Hpost).
    exists y, pre, (post ++ [x]).
    rewrite assoc_dict_set_ne by exact Hne.
    split; [exact Ha |]. split; [now rewrite <- app_assoc |].
    split; [exact Hy |]. apply Forall_app. auto.
Qed.

(** With distinct labels the keys are the labels, in the order of the
    list. *)
Lemma dict_of_keys_nodup {V} (key : V -> string) (l : list V) :
  NoDup (map key l) -> dict_keys (dict_of key l) = map key l.
Proof.
  induction l as [|x l IH] using rev_ind; [reflexivity |].
  rewrite map_app. simpl. intros Hnd.
  apply NoDup_app in Hnd as (Hl & Hdisj & _).
  rewrite dict_of_snoc, dict_keys_set_new, IH by
    (try rewrite dict_of_keys_in; try exact Hl;
     intros Hin; apply list_elem_of_In in Hin; apply (Hdisj _ Hin);
     apply list_elem_of_here).
  reflexivity.
Qed.

Lemma nodup_key_inj {V} (key : V -> string) (l : list V) (x y : V) :
  NoDup (map key l) -> In x l -> In y l -> key x = key y -> x = y.
Proof.
  induction l as [|z l IH]; simpl; [contradiction |].
  intros Hnd Hx Hy Hk. apply NoDup_cons in Hnd as [Hz Hnd].
  destruct Hx as [->|Hx], Hy as [->|Hy]; auto.
  - exfalso. apply Hz, list_elem_of_In. rewrite Hk. now apply in_map.
  - exfalso. apply Hz, list_elem_of_In. rewrite <- Hk. now apply in_map.
Qed.

(** X2. In the containers tab (lines 84-89), with a non-empty filtered list
    the lookup [container_options[selected]] never raises [KeyError]: it
    returns a container of the list bearing the selected label, the last one
    that bears it, and the panel goes on with that container; when the labels
    are distinct it is the container at the chosen index. *)
Theorem container_selection_found {W} (B : Backend W) (inp : Inputs)
    (filtered : list Container) :
  nonempty filtered = true ->
  exists label c pre post,
    selectbox (dict_keys (dict_of container_label filtered))
      (in_select_container inp) = Some label
    /\ dict_getitem (dict_of container_label filtered) (Some label) = inr c
    /\ filtered = pre ++ c :: post
    /\ container_label c = label
    /\ Forall (fun c' => container_label c' <> label) post
    /\ (NoDup (map container_label filtered) ->
        forall c0, nth_error filtered (in_select_container inp) = Some c0 ->
                   c = c0)
    /\ container_panel B inp filtered
       = (show (UiWrite [FStr "**Image:** "; FList (c_image_tags c)]) ;;
          show (UiWrite [FStr ("**Status:** " +:+ c_status c)]) ;;
          container_actions B inp c)%py.
Proof.
  intros Hne. apply nonempty_true in Hne.
  destruct (selectbox_member (dict_keys (dict_of container_label filtered))
              (in_select_container inp))
    as (label & Hsel & Hin & Hnth).
  { destruct filtered as [|x l]; [contradiction |]. intros Hk.
    assert (Hx : In (container_label x)
                   (dict_keys (dict_of container_label (x :: l))))
      by (apply (proj2 (dict_of_keys_in container_label (x :: l) _)); now left).
    rewrite Hk in Hx. destruct Hx. }
  apply (proj1 (dict_of_keys_in container_label filtered label)) in Hin.
  destruct (dict_of_last container_label filtered label Hin)
    as (c & pre & post & Ha & Hl & Hc & Hpost).
  assert (Hget : dict_getitem (dict_of container_label filtered) (Some label)
                 = inr c) by (unfold dict_getitem; now rewrite Ha).
  exists label, c, pre, post.
  repeat (split; [assumption || reflexivity |]).
  split.
  - intros Hnd c0 H0.
    apply (nodup_key_inj container_label filtered); auto.
    + rewrite Hl. apply in_elt.
    + eapply nth_error_In; eauto.
    + rewrite Hc. apply Hnth.
      rewrite (dict_of_keys_nodup _ _ Hnd), nth_error_map, H0. reflexivity.
  - unfold container_panel. cbv zeta.
    change (fun c1 : Container => c_name c1 +:+ " (" +:+ c_short_id c1 +:+ ")")
      with container_label.
    rewrite Hsel, Hget. reflexivity.
Qed.

Lemma container_selection_found_witness :
  nonempty (Sim.containers Sim.w0) = true
  /\ exists label c pre post,
       selectbox (dict_keys (dict_of container_label (Sim.containers Sim.w0)))
         (in_select_container Sim.select_db) = Some label
       /\ dict_getitem (dict_of container_label (Sim.containers Sim.w0))
            (Some label) = inr c
       /\ Sim.containers Sim.w0 = pre ++ c :: post
       /\ container_label c = label
       /\ Forall (fun c' => container_label c' <> label) post
       /\ (NoDup (map container_label (Sim.containers Sim.w0)) ->
           forall c0,
             nth_error (Sim.containers Sim.w0)
               (in_select_container Sim.select_db) = Some c0 -> c = c0)
       /\ container_panel Sim.backend Sim.select_db (Sim.containers Sim.w0)
          = (show (UiWrite [FStr "**Image:** "; FList (c_image_tags c)]) ;;
             show (UiWrite [FStr ("**Status:** " +:+ c_status c)]) ;;
             container_actions Sim.backend Sim.select_db c)%py.
Proof.
  split; [reflexivity |].
  apply (container_selection_found Sim.backend Sim.select_db
           (Sim.containers Sim.w0)).
  reflexivity.
Defined.

End Selections.

(** ** Narrowing a search *)

Section Narrowing.

Import PyStr.

Local Arguments String.append !_ _ / : simpl nomatch.

Lemma append_assoc (a b c : string) :
  String.append (String.append a b) c = String.append a (String.append b c).
Proof. induction a as [|x a IH]; simpl; [reflexivity | now rewrite IH]. Qed.

Lemma substring_of_trans (a b c : string) :
  substring_of a b -> substring_of b c -> substring_of a c.
Proof.
  intros (p1 & q1 & ->) (p2 & q2 & ->).
  exists (String.append p2 p1), (String.append q1 q2).
  now rewrite !append_assoc.
Qed.

Lemma substring_of_empty (a : string) : substring_of a "" -> a = "".
Proof.
  intros (p & q & H). destruct p; simpl in H; [| discriminate].
  destruct a; [reflexivity | discriminate].
Qed.





Lemma filter_filter_imp {A} (p q : A -> bool) (l : list A) :
  (forall x, q x = true -> p x = true) ->
  List.filter q l = List.filter q (List.filter p l).
Proof.
  intros Himp. induction l as [|x l IH]; simpl; [reflexivity |].
  destruct (q x) eqn:Hq.
  - rewrite (Himp x Hq). simpl. rewrite Hq. now f_equal.
  - destruct (p x); simpl; [rewrite Hq |]; exact IH.
Qed.


Lemma filter_images_incl (s : string) (l : list Image) :
  incl (filter_images s l) l.
Proof.
  unfold filter_images. destruct (truthy s); [| apply incl_refl].
  intros c Hc. now apply filter_In in Hc.
Qed.



(** X4. Line 127: when the text [s1] occurs in the text [s2] exactly,
    searching the images for [s2] gives the same list as searching for [s2]
    within the result of the search for [s1]; so typing more of a tag can
    only remove images from the list. *)
Theorem narrower_image_search (s1 s2 : string) (l : list Image) :
  substring_of s1 s2 ->
  filter_images s2 l = filter_images s2 (filter_images s1 l)
  /\ incl (filter_images s2 l) (filter_images s1 l).
Proof.
  intros H12.
  assert (Heq : filter_images s2 l = filter_images s2 (filter_images s1 l)).
  { unfold filter_images.
    destruct (truthy s1) eqn:H1; [| reflexivity].
    destruct (truthy s2) eqn:H2.
    - apply filter_filter_imp. intros i Hi.
      apply tag_matches_iff. apply tag_matches_iff in Hi.
      destruct Hi as (tag & Hin & Ht). exists tag. split; [exact Hin |].
      eapply substring_of_trans; eauto.
    - apply truthy_false in H2. subst s2.
      apply substring_of_empty in H12. subst s1. discriminate. }
  split; [exact Heq |]. rewrite Heq. apply filter_images_incl.
Qed.

Lemma narrower_image_search_witness :
  substring_of "Nginx" "my/Nginx"
  /\ filter_images "my/Nginx" (Sim.images Sim.w0)
     = filter_images "my/Nginx" (filter_images "Nginx" (Sim.images Sim.w0))
  /\ incl (filter_images "my/Nginx" (Sim.images Sim.w0))
       (filter_images "Nginx" (Sim.images Sim.w0)).
Proof.
  assert (H : substring_of "Nginx" "my/Nginx")
    by (apply contains_iff; reflexivity).
  split; [exact H |].
  exact (narrower_image_search "Nginx" "my/Nginx" (Sim.images Sim.w0) H).
Defined.

End Narrowing.

(** ** More on the connector in a session *)

Section ConnectorInSession.

Context {W : Type} (B : Backend W).

(** A property of the state that the connector keeps and that depends on the
    cache table only is kept by every rerun and by every session. *)
Lemma main_keeps (I : state W -> Prop) :
  (forall s s', cache s' = cache s -> I s -> I s') ->
  (forall uri s r s', get_docker_client_via_tcp B uri s = (r, s') -> I s -> I s') ->
  forall inp s r s', main B inp s = (r, s') -> I s -> I s'.
Proof.
  intros Hsame Hconn inp.
  set (R := fun a b : state W => I a -> I b).
  assert (R_refl : forall a, R a a) by (intros a H; exact H).
  assert (R_trans : forall a b c, R a b -> R b c -> R a c)
    by (intros a b c H1 H2 H; auto).
  assert (weaken : forall A (m : M W A), respects same_cache m -> respects R m).
  { intros A m Hm a ra b Hab Ha. apply (Hsame a b); [| exact Ha].
    eapply Hm; eauto. }
  enough (respects R (main B inp)) as Hmain by (intros s r s'; apply Hmain).
  unfold main. apply (respects_bind _ R_trans).
  { apply weaken, show_same_cache. }
  intros _. apply (respects_bind _ R_trans).
  - unfold connect. destruct (in_mode inp).
    + apply (respects_bind _ R_trans).
      * intros a ra b Hab Ha. eapply Hconn; eauto.
      * intros [c|]; [apply (respects_ret _ R_refl) | apply (respects_stop _ R_refl)].
    + apply weaken.
      repeat respects_step (@same_cache_refl W) (@same_cache_trans W)
        ltac:(first [apply show_same_cache | apply run_ssh_command_same_cache]).
  - intros client. apply weaken, tabs_same_cache.
Qed.

Lemma steps_keeps (I : state W -> Prop) :
  (forall s s', cache s' = cache s -> I s -> I s') ->
  (forall uri s r s', get_docker_client_via_tcp B uri s = (r, s') -> I s -> I s') ->
  forall s s', steps B s s' -> I s -> I s'.
Proof.
  intros Hsame Hconn s s' H.
  induction H as [s|s1 s2 s3 H12 _ IH]; [auto |].
  intros H1. apply IH. destruct H12 as [uri s0 r s1 H|inp s0 r s1 H|s0 w'].
  - eapply Hconn; eauto.
  - eapply main_keeps; eauto.
  - eapply Hsame; [| exact H1]. reflexivity.
Qed.

Lemma connect_keeps_urls (uri : string) (s : state W) r s' :
  get_docker_client_via_tcp B uri s = (r, s') -> cache_urls s -> cache_urls s'.
Proof.
  destruct (cache s !! uri) as [[v0 shown]|] eqn:Hc; intros H Hurls.
  - rewrite (connect_hit B _ _ _ _ Hc) in H. inversion H; subst. exact Hurls.
  - destruct (connect_miss B _ _ _ _ Hc H)
      as (r0 & s0 & Hb & -> & _ & _ & _ & _ & Hcache).
    destruct (body_result B _ _ _ _ Hb) as (Hc0 & _ & Hres).
    rewrite Hc0 in Hcache. intros u c sh Hu. rewrite Hcache in Hu.
    destruct r0 as [v| |]; try (eapply Hurls; eauto; fail).
    destruct (decide (uri = u)) as [<-|Hne].
    + rewrite lookup_insert_eq in Hu. inversion Hu; subst.
      destruct (handshake B uri _ (world s)) as [[e|[]] w'].
      * destruct Hres as [_ Hres]. destruct (exn_docker e);
          destruct Hres as [Hr _]; discriminate.
      * destruct Hres as [Hr _]. now inversion Hr.
    + rewrite lookup_insert_ne in Hu by exact Hne. eapply Hurls; eauto.
Qed.

Lemma reachable_urls (s : state W) : reachable B s -> cache_urls s.
Proof.
  intros [w H].
  apply (steps_keeps cache_urls) with (s := init_state w); auto.
  - intros a b Hab Ha. unfold cache_urls. now rewrite Hab.
  - intros uri a r b. apply connect_keeps_urls.
  - intros u c sh Hu. simpl in Hu. rewrite lookup_empty in Hu. discriminate.
Qed.

(** A failed handshake with a [DockerException] on a miss: [None] is
    returned and stored with the message. *)
Lemma connect_failure_stored (uri : string) (s : state W) (e : exn) (w' : W) :
  cache s !! uri = None ->
  handshake B uri (mkClient (next_id s) uri) (world s) = (inl e, w') ->
  exn_docker e = true ->
  exists s1,
    get_docker_client_via_tcp B uri s = (Ret None, s1)
    /\ cache s1 !! uri = Some (None, [UiError (connect_error uri e)]).
Proof.
  intros Hmiss Hh He.
  destruct (get_docker_client_via_tcp B uri s) as [r s1] eqn:Hget.
  destruct (connect_miss B _ _ _ _ Hmiss Hget)
    as (r0 & s0 & Hb & -> & _ & _ & Hui & _ & Hcache).
  destruct (body_result B _ _ _ _ Hb) as (_ & _ & Hres).
  rewrite Hh, He in Hres. destruct Hres as (_ & -> & Hui0).
  exists s1. split; [reflexivity |].
  rewrite Hcache, lookup_insert_eq, Hui0, drop_app_length. reflexivity.
Qed.

End ConnectorInSession.

(** X5. Lines 20-28: in every session, a client that
    [get_docker_client_via_tcp] returns for a URL is a client that was built
    for that URL; the table never hands out the client of another URL. *)
Theorem cached_client_built_for_url {W} (B : Backend W) (s s' : state W)
    (uri : string) (c : DockerClient) :
  reachable B s ->
  get_docker_client_via_tcp B uri s = (Ret (Some c), s') ->
  base_url c = uri.
Proof.
  intros Hreach Hget.
  destruct (connect_cached B _ _ _ _ Hget) as [shown Hc].
  apply reachable_urls in Hreach.
  exact (connect_keeps_urls B _ _ _ _ Hget Hreach _ _ _ Hc).
Qed.

Lemma cached_client_built_for_url_witness :
  reachable Sim.backend (init_state Sim.w0)
  /\ get_docker_client_via_tcp Sim.backend DEFAULT_DOCKER_HOST
       (init_state Sim.w0)
     = (Ret (Some (mkClient 0 DEFAULT_DOCKER_HOST)),
        snd (get_docker_client_via_tcp Sim.backend DEFAULT_DOCKER_HOST
               (init_state Sim.w0)))
  /\ base_url (mkClient 0 DEFAULT_DOCKER_HOST) = DEFAULT_DOCKER_HOST.
Proof.
  assert (Hreach : reachable Sim.backend (init_state Sim.w0))
    by (exists Sim.w0; apply rtc_refl).
  assert (Hget : get_docker_client_via_tcp Sim.backend DEFAULT_DOCKER_HOST
                   (init_state Sim.w0)
                 = (Ret (Some (mkClient 0 DEFAULT_DOCKER_HOST)),
                    snd (get_docker_client_via_tcp Sim.backend
                           DEFAULT_DOCKER_HOST (init_state Sim.w0))))
    by (vm_compute; reflexivity).
  exact (conj Hreach (conj Hget
    (cached_client_built_for_url Sim.backend _ _ _ _ Hreach Hget))).
Defined.

(** X6. Lines 20-28 and 57: when the handshake raises an exception that is
    not a [DockerException] for a URL that is not in the table, the connector
    raises it, displays nothing and stores nothing, so the next call tries the
    handshake again; a rerun in TCP mode with that URL ends with that
    exception right after the title. *)
Theorem other_exception_not_memoized {W} (B : Backend W) (uri : string)
    (s : state W) (e : exn) (w' : W) :
  cache s !! uri = None ->
  handshake B uri (mkClient (next_id s) uri) (world s) = (inl e, w') ->
  exn_docker e = false ->
  (exists s1,
     get_docker_client_via_tcp B uri s = (Raise e, s1)
     /\ cache s1 = cache s /\ ui s1 = ui s /\ world s1 = w')
  /\ (forall inp,
        in_mode inp = LocalDockerTCP -> in_docker_host inp = uri ->
        exists s2,
          main B inp s = (Raise e, s2)
          /\ cache s2 = cache s /\ ui s2 = ui s ++ [UiTitle title]
          /\ world s2 = w').
Proof.
  intros Hmiss Hh He.
  assert (Hconn : forall s0 : state W,
             cache s0 = cache s -> next_id s0 = next_id s ->
             world s0 = world s ->
             exists s1,
               get_docker_client_via_tcp B uri s0 = (Raise e, s1)
               /\ cache s1 = cache s /\ ui s1 = ui s0 /\ world s1 = w').
  { intros s0 Hc Hn Hw.
    destruct (get_docker_client_via_tcp B uri s0) as [r s1] eqn:Hget.
    assert (Hmiss0 : cache s0 !! uri = None) by now rewrite Hc.
    destruct (connect_miss B _ _ _ _ Hmiss0 Hget)
      as (r0 & s2 & Hb & -> & Hw1 & _ & Hui & _ & Hcache).
    destruct (body_result B _ _ _ _ Hb) as (Hc2 & _ & Hres).
    rewrite Hn, Hw, Hh, He in Hres. destruct Hres as (Hw2 & -> & Hui2).
    exists s1. split; [reflexivity |].
    rewrite Hcache, Hc2, Hui, Hui2, Hw1, Hw2. auto. }
  split; [apply Hconn; reflexivity |].
  intros inp Hmode Hhost.
  destruct (Hconn (snd (show (UiTitle title) s)) eq_refl eq_refl eq_refl)
    as (s1 & Hget & Hc & Hui & Hw).
  exists s1. unfold main, connect, bind. rewrite Hmode, Hhost.
  simpl in *. rewrite Hget. auto.
Qed.

Lemma other_exception_not_memoized_witness :
  let s := init_state Sim.w0 in
  let e := mkExn false "Connection aborted" in
  cache s !! DEFAULT_DOCKER_HOST = None
  /\ handshake backend_dropping_ping DEFAULT_DOCKER_HOST
       (mkClient (next_id s) DEFAULT_DOCKER_HOST) (world s)
     = (inl e, Sim.w0)
  /\ exn_docker e = false
  /\ exists s1,
       get_docker_client_via_tcp backend_dropping_ping DEFAULT_DOCKER_HOST s
       = (Raise e, s1)
       /\ cache s1 = cache s /\ ui s1 = ui s /\ world s1 = Sim.w0.
Proof.
  intros s e.
  assert (H0 : cache s !! DEFAULT_DOCKER_HOST = None) by apply lookup_empty.
  assert (H1 : handshake backend_dropping_ping DEFAULT_DOCKER_HOST
                 (mkClient (next_id s) DEFAULT_DOCKER_HOST) (world s)
               = (inl e, Sim.w0)) by (vm_compute; reflexivity).
  assert (H2 : exn_docker e = false) by reflexivity.
  exact (conj H0 (conj H1 (conj H2
    (proj1 (other_exception_not_memoized backend_dropping_ping
              DEFAULT_DOCKER_HOST s e Sim.w0 H0 H1 H2))))).
Defined.

(** X7. Lines 20-28 and 55-59: once the handshake for a URL has failed with
    a [DockerException], every later rerun of the session in TCP mode with
    that URL displays the title and the same failure message and halts,
    without any call to the library, whatever the engine then is. *)
Theorem failed_url_halts_reruns {W} (B : Backend W) (uri : string)
    (s s2 : state W) (e : exn) (w' : W) (inp : Inputs) :
  cache s !! uri = None ->
  handshake B uri (mkClient (next_id s) uri) (world s) = (inl e, w') ->
  exn_docker e = true ->
  steps B (snd (get_docker_client_via_tcp B uri s)) s2 ->
  in_mode inp = LocalDockerTCP ->
  in_docker_host inp = uri ->
  main B inp s2
  = (Halt,
     mkState (world s2) (cache s2) (next_id s2)
       (ui s2 ++ [UiTitle title; UiError (connect_error uri e)]) (trace s2)).
Proof.
  intros Hmiss Hh He Hsteps Hmode Hhost.
  destruct (connect_failure_stored B uri s e w' Hmiss Hh He)
    as (s1 & Hget & Hentry).
  rewrite Hget in Hsteps. simpl in Hsteps.
  pose proof (steps_keep B _ _ _ _ Hsteps Hentry) as Hentry2.
  unfold main, connect, bind. rewrite Hmode, Hhost. simpl.
  rewrite (connect_hit B uri _ None [UiError (connect_error uri e)])
    by exact Hentry2.
  simpl. now rewrite <- app_assoc.
Qed.

Lemma failed_url_halts_reruns_witness :
  let s := init_state Sim.w_down in
  let e := Sim.APIError "Error while fetching server API version" in
  let s1 := snd (get_docker_client_via_tcp Sim.backend DEFAULT_DOCKER_HOST s) in
  let s2 := mkState Sim.w0 (cache s1) (next_id s1) (ui s1) (trace s1) in
  cache s !! DEFAULT_DOCKER_HOST = None
  /\ handshake Sim.backend DEFAULT_DOCKER_HOST
       (mkClient (next_id s) DEFAULT_DOCKER_HOST) (world s)
     = (inl e, Sim.w_down)
  /\ exn_docker e = true
  /\ steps Sim.backend s1 s2
  /\ in_mode Sim.click_create = LocalDockerTCP
  /\ in_docker_host Sim.click_create = DEFAULT_DOCKER_HOST
  /\ main Sim.backend Sim.click_create s2
     = (Halt,
        mkState (world s2) (cache s2) (next_id s2)
          (ui s2 ++ [UiTitle title;
                     UiError (connect_error DEFAULT_DOCKER_HOST e)])
          (trace s2)).
Proof.
  intros s e s1 s2.
  assert (H0 : cache s !! DEFAULT_DOCKER_HOST = None) by apply lookup_empty.
  assert (H1 : handshake Sim.backend DEFAULT_DOCKER_HOST
                 (mkClient (next_id s) DEFAULT_DOCKER_HOST) (world s)
               = (inl e, Sim.w_down)) by (vm_compute; reflexivity).
  assert (H2 : exn_docker e = true) by reflexivity.
  assert (H3 : steps Sim.backend s1 s2)
    by (apply rtc_once; exact (step_world Sim.backend s1 Sim.w0)).
  assert (H4 : in_mode Sim.click_create = LocalDockerTCP) by reflexivity.
  assert (H5 : in_docker_host Sim.click_create = DEFAULT_DOCKER_HOST)
    by reflexivity.
  exact (conj H0 (conj H1 (conj H2 (conj H3 (conj H4 (conj H5
    (failed_url_halts_reruns Sim.backend DEFAULT_DOCKER_HOST s s2 e
       Sim.w_down Sim.click_create H0 H1 H2 H3 H4 H5))))))).
Defined.

(** ** Reruns in SSH mode *)

Section SshReruns.

Context {W : Type} (B : Backend W).

(** One call of [run_ssh_command], step by step. *)
Lemma run_ssh_command_run (host username password command : string)
    (s : state W) :
  exists txt s' n,
    run_ssh_command B host username password command s = (Ret txt, s')
    /\ trace s' = trace s ++ firstn n (ssh_calls host username command)
    /\ 1 <= n <= 5
    /\ ui s' = ui s /\ cache s' = cache s /\ next_id s' = next_id s
    /\ (n < 5 -> exists e, txt = "SSH connection error: " +:+ exn_str e)
    /\ ((forall e, txt <> "SSH connection error: " +:+ exn_str e) -> n = 5).
Proof.
  unfold run_ssh_command, try_except, ssh_session, bind, lib, eval, ret, raise,
    Exception, ssh_calls. simpl.
  destruct (ssh_connect B _ _ _ _ _) as [[e|?] w1]; simpl.
  { exists ("SSH connection error: " +:+ exn_str e). eexists. exists 1. simpl.
    repeat split; eauto; try lia. intros H. now destruct (H e). }
  destruct (ssh_exec_command B _ _) as [[e|?] w2]; simpl.
  { exists ("SSH connection error: " +:+ exn_str e). eexists. exists 2. simpl.
    rewrite <- app_assoc. repeat split; eauto; try lia.
    intros H. now destruct (H e). }
  destruct (ssh_stdout_read B _) as [[e|o] w3]; simpl.
  { exists ("SSH connection error: " +:+ exn_str e). eexists. exists 3. simpl.
    rewrite <- !app_assoc. repeat split; eauto; try lia.
    intros H. now destruct (H e). }
  destruct (bytes_decode B o) as [e|output]; simpl.
  { exists ("SSH connection error: " +:+ exn_str e). eexists. exists 3. simpl.
    rewrite <- !app_assoc. repeat split; eauto; try lia.
    intros H. now destruct (H e). }
  destruct (ssh_stderr_read B _) as [[e|o'] w4]; simpl.
  { exists ("SSH connection error: " +:+ exn_str e). eexists. exists 4. simpl.
    rewrite <- !app_assoc. repeat split; eauto; try lia.
    intros H. now destruct (H e). }
  destruct (bytes_decode B o') as [e|error]; simpl.
  { exists ("SSH connection error: " +:+ exn_str e). eexists. exists 4. simpl.
    rewrite <- !app_assoc. repeat split; eauto; try lia.
    intros H. now destruct (H e). }
  destruct (ssh_close B _) as [[e|?] w5]; simpl.
  { exists ("SSH connection error: " +:+ exn_str e). eexists. exists 5. simpl.
    rewrite <- !app_assoc. repeat split; eauto; lia. }
  exists (if PyStr.truthy output then output else error). eexists. exists 5.
  simpl. rewrite <- !app_assoc. repeat split; eauto; lia.
Qed.

(** The tabs in SSH mode: messages only. *)
Lemma tabs_ssh_display (inp : Inputs) (s : state W) :
  in_mode inp = SSHToRemoteDocker ->
  tabs B inp None s
  = (Ret tt,
     mkState (world s) (cache s) (next_id s)
       (ui s
        ++ [UiMarkdown "---"; UiSubheader "Containers List";
            UiInfo [FStr "No containers found."];
            UiSubheader "Create New Container"]
        ++ (if in_create inp
            then [UiError (exn_str (UnboundLocalError "client"))] else [])
        ++ [UiSubheader "Docker Images"; UiMarkdown "### Pull New Image"]
        ++ (if in_pull inp
            then [UiError (exn_str (UnboundLocalError "client"))] else [])
        ++ [UiInfo [FStr "Logs available only in Local TCP mode."];
            UiInfo [FStr "Exec available only in Local TCP mode."]])
       (trace s)).
Proof.
  intros Hmode.
  unfold tabs, tab_containers, tab_images, tab_logs, tab_exec, list_containers,
    list_images.
  rewrite Hmode. cbv [bind ret show when world cache next_id ui trace].
  rewrite filter_containers_nil, filter_images_nil, create_and_run_unbound,
    pull_image_unbound.
  cbv [nonempty for_each show ret world cache next_id ui trace].
  destruct (in_create inp), (in_pull inp);
    cbv [show world cache next_id ui trace];
    rewrite <- !app_assoc; reflexivity.
Qed.

End SshReruns.

(** X8. Lines 49-170 in SSH mode: a rerun always runs to its end, never
    raising and never halting, whatever is clicked and whatever the remote
    host does; it displays the title, the text of "Test SSH Connection" if
    that was clicked, the warning, "No containers found." and the two
    "available only in Local TCP mode" notes; "Create & Run" and "Pull Image"
    each display the [UnboundLocalError] of the variable [client]; the cache
    table is untouched. *)
Theorem ssh_rerun_runs_to_end {W} (B : Backend W) (inp : Inputs)
    (s : state W) :
  in_mode inp = SSHToRemoteDocker ->
  exists s' result,
    main B inp s = (Ret tt, s')
    /\ ui s' = ui s ++ ssh_rerun_display inp result
    /\ cache s' = cache s
    /\ (in_test_ssh inp = false ->
        result = None /\ trace s' = trace s /\ world s' = world s)
    /\ (in_test_ssh inp = true ->
        exists txt s1,
          result = Some txt
          /\ run_ssh_command B (in_ssh_host inp) (in_ssh_user inp)
               (in_ssh_pass inp) "docker ps -a" (snd (show (UiTitle title) s))
             = (Ret txt, s1)).
Proof.
  intros Hmode.
  assert (Hmain : main B inp s
                  = (client <- connect B inp ;; tabs B inp client)%py
                      (mkState (world s) (cache s) (next_id s)
                         (ui s ++ [UiTitle title]) (trace s)))
    by reflexivity.
  rewrite Hmain. clear Hmain. unfold connect. rewrite Hmode.
  destruct (in_test_ssh inp) eqn:Htest.
  - destruct (run_ssh_command_run B (in_ssh_host inp) (in_ssh_user inp)
                (in_ssh_pass inp) "docker ps -a" (snd (show (UiTitle title) s)))
      as (txt & s1 & n & Hrun & _ & _ & Hui & Hc & _).
    change (snd (show (UiTitle title) s))
      with (mkState (world s) (cache s) (next_id s)
              (ui s ++ [UiTitle title]) (trace s)) in *.
    cbn [ui cache] in Hui, Hc.
    cbv [bind when]. rewrite Hrun. cbv [show ret].
    rewrite (tabs_ssh_display B inp _ Hmode).
    cbv [world cache next_id ui trace]. destruct s1 as [w1 c1 n1 u1 t1].
    cbn [ui cache] in Hui, Hc. subst u1 c1.
    eexists. exists (Some txt). split; [reflexivity |].
    cbn [world cache next_id ui trace]. unfold ssh_rerun_display.
    split; [now rewrite <- !app_assoc |]. split; [reflexivity |].
    split; [discriminate |]. intros _.
    exists txt. eexists. split; reflexivity.
  - cbv [bind when show ret].
    rewrite (tabs_ssh_display B inp _ Hmode).
    eexists. exists None. split; [reflexivity |].
    cbn [world cache next_id ui trace]. unfold ssh_rerun_display.
    split; [now rewrite <- !app_assoc |]. split; [reflexivity |].
    split; [auto | discriminate].
Qed.

Lemma ssh_rerun_runs_to_end_witness :
  in_mode (Sim.test_ssh "10.0.0.9") = SSHToRemoteDocker
  /\ exists s' result,
       main Sim.backend (Sim.test_ssh "10.0.0.9") (init_state Sim.w_down)
       = (Ret tt, s')
       /\ ui s' = ui (init_state Sim.w_down)
                  ++ ssh_rerun_display (Sim.test_ssh "10.0.0.9") result
       /\ cache s' = cache (init_state Sim.w_down).
Proof.
  split; [reflexivity |].
  destruct (ssh_rerun_runs_to_end Sim.backend (Sim.test_ssh "10.0.0.9")
              (init_state Sim.w_down) eq_refl)
    as (s' & result & Hmain & Hui & Hc & _).
  exact (ex_intro _ s' (ex_intro _ result (conj Hmain (conj Hui Hc)))).
Defined.

(** X9. Lines 31-43: one call of [run_ssh_command] makes the paramiko calls
    connect, exec_command, stdout read, stderr read, close in that order and
    stops at the first that fails: the calls made are a non-empty initial
    part of that sequence.  Whenever the text returned is not a connection
    error message all five were made; when fewer than five were made (the
    session was not closed) the text is such a message.  The call displays
    nothing and leaves the cache table alone. *)
Theorem run_ssh_command_calls {W} (B : Backend W)
    (host username password command : string) (s : state W) :
  exists txt s' n,
    run_ssh_command B host username password command s = (Ret txt, s')
    /\ trace s' = trace s ++ firstn n (ssh_calls host username command)
    /\ 1 <= n <= 5
    /\ ui s' = ui s /\ cache s' = cache s /\ next_id s' = next_id s
    /\ (n < 5 -> exists e, txt = "SSH connection error: " +:+ exn_str e)
    /\ ((forall e, txt <> "SSH connection error: " +:+ exn_str e) -> n = 5).
Proof. apply run_ssh_command_run. Qed.

Lemma run_ssh_command_calls_witness :
  exists txt s' n,
    run_ssh_command Sim.backend "10.0.0.9" "root" "secret" "docker ps -a"
      (init_state Sim.w_down) = (Ret txt, s')
    /\ trace s'
       = trace (init_state Sim.w_down)
         ++ firstn n (ssh_calls "10.0.0.9" "root" "docker ps -a")
    /\ 1 <= n <= 5
    /\ ui s' = ui (init_state Sim.w_down)
    /\ cache s' = cache (init_state Sim.w_down)
    /\ next_id s' = next_id (init_state Sim.w_down)
    /\ (n < 5 -> exists e, txt = "SSH connection error: " +:+ exn_str e)
    /\ ((forall e, txt <> "SSH connection error: " +:+ exn_str e) -> n = 5).
Proof.
  exact (run_ssh_command_calls Sim.backend "10.0.0.9" "root" "secret"
           "docker ps -a" (init_state Sim.w_down)).
Defined.

(** ** Reruns in which nothing is clicked *)

Section Calls.

Context {W : Type} (B : Backend W) (p : call -> bool).

Lemma makes_only_refl (s : state W) : makes_only p s s.
Proof. exists []. split; [now rewrite app_nil_r | reflexivity]. Qed.

Lemma makes_only_trans (s1 s2 s3 : state W) :
  makes_only p s1 s2 -> makes_only p s2 s3 -> makes_only p s1 s3.
Proof.
  intros (l1 & H1 & F1) (l2 & H2 & F2). exists (l1 ++ l2). split.
  - now rewrite H2, H1, app_assoc.
  - now rewrite forallb_app, F1, F2.
Qed.

Lemma show_makes_only (e : ui_elem) : respects (makes_only p) (@show W e).
Proof.
  intros s r s' H. inversion H. exists []. simpl. now rewrite app_nil_r.
Qed.

Lemma alloc_makes_only : respects (makes_only p) (@alloc W).
Proof.
  intros s r s' H. inversion H. exists []. simpl. now rewrite app_nil_r.
Qed.

Lemma lib_makes_only {A} (c : call) (op : W -> res A * W) :
  p c = true -> respects (makes_only p) (lib c op).
Proof.
  intros Hc s r s' H. unfold lib in H.
  destruct (op (world s)) as [[e|a] w']; inversion H; exists [c]; simpl;
    now rewrite Hc.
Qed.

(** The connector calls the constructor and the ping, on a miss only. *)
Lemma connect_makes_only (uri : string) :
  p (DockerClientInit uri) = true -> p (Ping uri) = true ->
  respects (makes_only p) (get_docker_client_via_tcp B uri).
Proof.
  intros Hi Hp s r s' H.
  destruct (cache s !! uri) as [[v0 shown]|] eqn:Hc.
  - rewrite (connect_hit B _ _ _ _ Hc) in H. inversion H; subst.
    exists []. simpl. now rewrite app_nil_r.
  - destruct (connect_miss B _ _ _ _ Hc H)
      as (r0 & s0 & Hb & _ & _ & _ & _ & Ht & _).
    assert (Hbody : respects (makes_only p)
                      (get_docker_client_via_tcp_body B uri)).
    { unfold get_docker_client_via_tcp_body.
      repeat respects_step makes_only_refl makes_only_trans
        ltac:(first [ apply show_makes_only | apply alloc_makes_only
                    | apply lib_makes_only; assumption ]). }
    destruct (Hbody _ _ _ Hb) as (calls & Hcalls & Hall).
    exists calls. split; [congruence | exact Hall].
Qed.

End Calls.

(** X10. Lines 49-170: a rerun in which no button is clicked asks nothing of
    the engine but to read: whatever the mode, the selections, the search
    texts and the stats checkbox, the only library calls it makes are the
    handshake of the connector, the two listings, the stats sample and the
    log tail; no container or image is started, stopped, removed, created or
    pulled, no command is executed, and no SSH session is opened. *)
Theorem rerun_without_click_reads_only {W} (B : Backend W) (inp : Inputs)
    (s : state W) (r : outcome unit) (s' : state W) :
  no_click inp ->
  main B inp s = (r, s') ->
  makes_only is_read_call s s'.
Proof.
  intros (Ht & Hstart & Hstop & Hrestart & Hremove & Hcreate & Hrm & Hpull
          & Hdl & Hrun).
  enough (respects (makes_only is_read_call) (main B inp)) as Hmain
    by (apply Hmain).
  unfold main, connect, tabs, tab_containers, tab_images, tab_logs, tab_exec,
    container_panel, container_actions, show_live_stats, list_containers,
    list_images, load_client.
  rewrite Ht, Hstart, Hstop, Hrestart, Hremove, Hcreate, Hpull, Hdl, Hrun.
  cbn [when].
  repeat first
    [ rewrite Hrm; cbn [when]
    | respects_step (@makes_only_refl W is_read_call)
        (@makes_only_trans W is_read_call)
        ltac:(first [ apply show_makes_only
                    | apply connect_makes_only; reflexivity
                    | apply lib_makes_only; reflexivity ]) ].
Qed.

Lemma rerun_without_click_reads_only_witness :
  no_click default_inputs
  /\ makes_only is_read_call (init_state Sim.w0)
       (snd (main Sim.backend default_inputs (init_state Sim.w0))).
Proof.
  assert (H : no_click default_inputs)
    by (repeat split; intros; reflexivity).
  split; [exact H |].
  exact (rerun_without_click_reads_only Sim.backend default_inputs
           (init_state Sim.w0) _ _ H (surjective_pairing _)).
Defined.

(** ** The stats block and the images tab *)



Section ImagesTab.

Context {W : Type} (B : Backend W).




End ImagesTab.



(** ** Where a rerun can halt *)

Section Halting.

Context {W : Type} (B : Backend W).

Lemma never_halts_ret {A} (a : A) : never_halts (@ret W A a).
Proof. intros s. discriminate. Qed.

Lemma never_halts_raise {A} (e : exn) : never_halts (@raise W A e).
Proof. intros s. discriminate. Qed.

Lemma never_halts_eval {A} (x : res A) : never_halts (@eval W A x).
Proof. destruct x; [apply never_halts_raise | apply never_halts_ret]. Qed.

Lemma never_halts_show (e : ui_elem) : never_halts (@show W e).
Proof. intros s. discriminate. Qed.

Lemma never_halts_alloc : never_halts (@alloc W).
Proof. intros s. discriminate. Qed.

Lemma never_halts_lib {A} (c : call) (op : W -> res A * W) :
  never_halts (lib c op).
Proof.
  intros s. unfold lib. destruct (op (world s)) as [[e|a] w']; discriminate.
Qed.

Lemma never_halts_bind {A C} (m : M W A) (k : A -> M W C) :
  never_halts m -> (forall a, never_halts (k a)) -> never_halts (bind m k).
Proof.
  intros Hm Hk s. unfold bind. specialize (Hm s).
  destruct (m s) as [[a|e|] s1]; simpl in *.
  - apply Hk.
  - discriminate.
  - contradiction.
Qed.

Lemma never_halts_try {A} (catches : exn -> bool) (body : M W A)
    (handler : exn -> M W A) :
  never_halts body -> (forall e, never_halts (handler e)) ->
  never_halts (try_except catches body handler).
Proof.
  intros Hb Hh s. unfold try_except. specialize (Hb s).
  destruct (body s) as [[a|e|] s1]; simpl in *.
  - discriminate.
  - destruct (catches e); [apply Hh | discriminate].
  - contradiction.
Qed.

Lemma never_halts_when (b : bool) (m : M W unit) :
  never_halts m -> never_halts (when b m).
Proof. intros Hm. destruct b; [exact Hm | apply never_halts_ret]. Qed.

Lemma never_halts_for_each {A} (l : list A) (body : A -> M W unit) :
  (forall x, never_halts (body x)) -> never_halts (for_each l body).
Proof.
  intros Hb. induction l as [|x l IH]; simpl.
  - apply never_halts_ret.
  - apply never_halts_bind; auto.
Qed.

Lemma never_halts_cache_resource (f : string -> M W (option DockerClient))
    (key : string) :
  never_halts (f key) -> never_halts (cache_resource f key).
Proof.
  intros Hf s. unfold cache_resource.
  destruct (cache s !! key) as [[v shown]|]; [discriminate |].
  specialize (Hf s). destruct (f key s) as [[v|e|] s1]; simpl in *;
    [discriminate | discriminate | contradiction].
Qed.

Ltac no_halt :=
  repeat first
    [ apply never_halts_ret | apply never_halts_raise | apply never_halts_eval
    | apply never_halts_show | apply never_halts_alloc | apply never_halts_lib
    | apply never_halts_when
    | apply never_halts_for_each; intros ?
    | apply never_halts_bind; [| intros ?]
    | apply never_halts_try; [| intros ?]
    | match goal with
      | |- never_halts (match ?x with _ => _ end) => destruct x
      end ].

Lemma connector_never_halts (uri : string) :
  never_halts (get_docker_client_via_tcp B uri).
Proof.
  apply never_halts_cache_resource.
  unfold get_docker_client_via_tcp_body. no_halt.
Qed.

Lemma run_ssh_command_never_halts (host username password command : string) :
  never_halts (run_ssh_command B host username password command).
Proof. unfold run_ssh_command, ssh_session. no_halt. Qed.

Lemma tabs_never_halt (inp : Inputs) (client : option DockerClient) :
  never_halts (tabs B inp client).
Proof.
  unfold tabs, tab_containers, tab_images, tab_logs, tab_exec,
    container_panel, container_actions, show_live_stats, create_and_run,
    remove_image, pull_image, exec_in_container, list_containers, list_images,
    load_client.
  no_halt.
Qed.

End Halting.

(** X13. Lines 49-170: the only place where a rerun halts is the gate of
    lines 58-59.  If a rerun ends halted, the mode is TCP and the connector
    returned [None] for the URL entered, and the rerun ended in the state the
    connector left; no handler and no library call ever halts a rerun. *)
Theorem halt_only_at_gate {W} (B : Backend W) (inp : Inputs)
    (s s' : state W) :
  main B inp s = (Halt, s') ->
  in_mode inp = LocalDockerTCP
  /\ get_docker_client_via_tcp B (in_docker_host inp)
       (snd (show (UiTitle title) s)) = (Ret None, s').
Proof.
  unfold main, bind at 1. cbn [show]. unfold bind at 1.
  destruct (connect B inp _) as [[client|e|] sg] eqn:Hc.
  - intros H. exfalso. apply (tabs_never_halt B inp client sg).
    now rewrite H.
  - discriminate.
  - intros [= <-]. unfold connect in Hc.
    destruct (in_mode inp).
    + split; [reflexivity |]. unfold bind in Hc. cbn [snd show].
      pose proof (connector_never_halts B (in_docker_host inp)
                    (mkState (world s) (cache s) (next_id s)
                       (ui s ++ [UiTitle title]) (trace s))) as Hnh.
      destruct (get_docker_client_via_tcp B _ _) as [[[c|]|e|] s1];
        simpl in *; try discriminate; try contradiction.
      now inversion Hc.
    + exfalso.
      assert (Hnh : never_halts
                (when (in_test_ssh inp)
                   (result <- run_ssh_command B (in_ssh_host inp)
                                (in_ssh_user inp) (in_ssh_pass inp)
                                "docker ps -a" ;;
                    show (UiCode result)) ;;
                 show (UiWarning
                   "SSH mode uses remote Docker CLI via commands — limited UI features.") ;;
                 @ret W _ (@None DockerClient))%py).
      { apply never_halts_bind; [apply never_halts_when |].
        - apply never_halts_bind;
            [apply run_ssh_command_never_halts | intros; apply never_halts_show].
        - intros _. apply never_halts_bind;
            [apply never_halts_show | intros; apply never_halts_ret]. }
      apply (Hnh (mkState (world s) (cache s) (next_id s)
                    (ui s ++ [UiTitle title]) (trace s))).
      now rewrite Hc.
Qed.

Lemma halt_only_at_gate_witness :
  main Sim.backend Sim.click_create (init_state Sim.w_down)
  = (Halt, snd (main Sim.backend Sim.click_create (init_state Sim.w_down)))
  /\ in_mode Sim.click_create = LocalDockerTCP
  /\ get_docker_client_via_tcp Sim.backend (in_docker_host Sim.click_create)
       (snd (show (UiTitle title) (init_state Sim.w_down)))
     = (Ret None,
        snd (main Sim.backend Sim.click_create (init_state Sim.w_down))).
Proof.
  assert (H : main Sim.backend Sim.click_create (init_state Sim.w_down)
              = (Halt,
                 snd (main Sim.backend Sim.click_create
                        (init_state Sim.w_down))))
    by (vm_compute; reflexivity).
  exact (conj H (halt_only_at_gate Sim.backend Sim.click_create _ _ H)).
Defined.
